(** * A shallow embedding of the text-to-SQL chatbot (src/main.py)

    The development follows the source:
    - [PyStr]: Python [str] values as sequences of code points, with the
      string operations the source calls ([in], [split], [strip]);
    - [pyval], [exn], [result]: the Python values that [json.loads] produces
      and [ask] returns, the exceptions, and computations that may raise;
    - [External]: the library functions and services the program calls;
    - [Schema]: the two JSON schemas of the source and the keywords of
      [jsonschema.validate] they exercise;
    - [Extractor]: [extract_json_from_response];
    - [Orchestrator]: [ask], over the state of the two chat sessions and of
      the database connection, with a trace of its visible actions;
    - [Demo]: concrete collaborators, to run the program on examples.
    The properties come after the definitions. *)

From Stdlib Require Import ZArith NArith String Ascii List Lia DecimalString.
From Stdlib Require Import Floats.SpecFloat.
From stdpp Require Import base option list gmap.

Set Warnings "-register-all".
Local Open Scope Z_scope.

(** ** Python strings *)

(** A Python [str] is a sequence of Unicode code points. *)
Abbreviation str := (list N).

Module PyStr.

(** A source literal (all literals of the source are ASCII). *)
Definition lit (s : string) : str :=
  map N_of_ascii (list_ascii_of_string s).

(** A literal in which the apostrophe stands for the double quote (for
    JSON texts). *)
Definition qlit (s : string) : str :=
  map (fun c => if (c =? 39)%N then 34%N else c) (lit s).

(** The line feed written [\n] in the source's literals. *)
Definition LF : str := [10%N].

(** [s.startswith(p)]. *)
Fixpoint startswith (p s : str) : bool :=
  match p, s with
  | [], _ => true
  | _ :: _, [] => false
  | a :: p', b :: s' => (a =? b)%N && startswith p' s'
  end.

(** [s.find(sub)]: the lowest index at which [sub] occurs in [s]. *)
Fixpoint find (sub s : str) : option nat :=
  if startswith sub s then Some 0%nat
  else match s with
       | [] => None
       | _ :: s' => S <$> find sub s'
       end.

(** [sub in s]. *)
Definition contains (sub s : str) : bool :=
  match find sub s with Some _ => true | None => false end.

(** [s.split(sep)] for a non-empty [sep] (every separator of the source is
    a non-empty literal; Python raises [ValueError] on an empty one): the
    occurrences of [sep] are taken from the left, without overlap.  The
    recursion is on a bound on the length of what is left to scan. *)
Fixpoint split_upto (n : nat) (sep s : str) : list str :=
  match n with
  | O => [s]
  | S n' =>
      match find sep s with
      | None => [s]
      | Some i => take i s :: split_upto n' sep (drop (i + length sep) s)
      end
  end.

Definition split (sep s : str) : list str := split_upto (length s) sep s.

(** Two notions the statements below use: the text before the first
    occurrence of a marker (the whole text when there is none), and the
    text after it. *)
Definition before (marker s : str) : str :=
  match find marker s with
  | Some i => take i s
  | None => s
  end.

Definition after (marker s : str) : str :=
  match find marker s with
  | Some i => drop (i + length marker) s
  | None => []
  end.

(** [c.isspace()] for a single code point: the white space of
    [str.strip()] without argument. *)
Definition isspace (c : N) : bool :=
  ((9 <=? c) && (c <=? 13) || (28 <=? c) && (c <=? 32)
   || (c =? 133) || (c =? 160) || (c =? 5760)
   || (8192 <=? c) && (c <=? 8202)
   || (c =? 8232) || (c =? 8233) || (c =? 8239) || (c =? 8287)
   || (c =? 12288))%N.

Fixpoint lstrip (s : str) : str :=
  match s with
  | c :: s' => if isspace c then lstrip s' else s
  | [] => []
  end.

Definition rstrip (s : str) : str := reverse (lstrip (reverse s)).

(** [s.strip()]. *)
Definition strip (s : str) : str := lstrip (rstrip s).

End PyStr.

(** ** Python values *)

Inductive pyval : Type :=
  | PyNone
  | PyBool (b : bool)
  | PyInt (z : Z)
  | PyFloat (f : spec_float)
  | PyStr (s : str)
  | PyList (l : list pyval)
  | PyTuple (l : list pyval)
  | PyDict (d : gmap str pyval).

(** ** Exceptions and results *)

(** The type names the source's schemas use. *)
Inductive jtype : Type := TObject | TString.

(** One unmet constraint found by the validator. *)
Inductive violation : Type :=
  | NotOfType (instance : pyval) (ty : jtype)
  | RequiredMissing (instance : pyval) (property : str).

(** The exceptions ([Exception] subclasses) that can arise inside [ask]. *)
Inductive exn : Type :=
  | JSONDecodeError (msg : str)
  | ValidationError (instance : pyval) (violations : list violation)
  | IndexError
  | KeyError (key : str)
  | TypeError
  | Raised (class_name descr : str).
      (* any exception raised by a collaborator: the model service, the
         database driver, [json.dumps] *)

(** The outcome of a computation that may raise. *)
Inductive result (A : Type) : Type :=
  | Ok (a : A)
  | Err (e : exn).
Arguments Ok {A} a.
Arguments Err {A} e.

#[export] Instance result_ret : MRet result := fun A a => Ok a.
#[export] Instance result_bind : MBind result := fun A B f r =>
  match r with
  | Ok a => f a
  | Err e => Err e
  end.

(** [try: body  except Exception as e: handler(e)]. *)
Definition try_except {A} (body : result A) (handler : exn -> result A) : result A :=
  match body with
  | Ok a => Ok a
  | Err e => handler e
  end.

(** [l[i]] on a list. *)
Definition index {A} (l : list A) (i : nat) : result A :=
  match l !! i with
  | Some x => Ok x
  | None => Err IndexError
  end.

(** [obj[key]] with a string key. *)
Definition getitem (obj : pyval) (key : str) : result pyval :=
  match obj with
  | PyDict d =>
      match d !! key with
      | Some v => Ok v
      | None => Err (KeyError key)
      end
  | _ => Err TypeError
  end.

(** ** The collaborators of the program

    Library functions and external services are parameters of the
    development.  A chat session and the database connection are state
    machines: a call returns its outcome and the collaborator's next state
    (a session's history, the database's contents). *)
Class External : Type := {
  SqlSession : Type;
  RespSession : Type;
  Conn : Type;
  Rows : Type;
  (** [json.loads(text)] on a [str]: the decoded value, or the message of
      the [JSONDecodeError] it raises. *)
  json_loads : str -> pyval + str;
  (** [json.dumps(data)]. *)
  json_dumps : Rows -> result str;
  (** [sql_chat.send_message(msg).text]. *)
  sql_send_message : SqlSession -> str -> result str * SqlSession;
  (** [response_chat.send_message(msg).text]. *)
  response_send_message : RespSession -> str -> result str * RespSession;
  (** [cur.execute(query)] followed by [cur.fetchall()]. *)
  cur_execute : Conn -> str -> result Rows * Conn;
  (** [str(e)] for an exception [e]. *)
  str_exn : exn -> str
}.

(** ** The JSON schemas ([sql_schema], [response_schema]) and [validate] *)

Module Schema.

(** A JSON schema with the keywords the source uses: [type], [properties]
    and [required]. *)
Inductive schema : Type :=
  | Mk (type : option jtype) (properties : list (str * schema)) (required : list str).

Definition is_type (instance : pyval) (ty : jtype) : bool :=
  match ty, instance with
  | TObject, PyDict _ => true
  | TString, PyStr _ => true
  | _, _ => false
  end.

(** The violations jsonschema finds, keyword by keyword: [type]; then
    [properties], which looks only at the properties present in an object;
    then [required], which looks only at objects. *)
Fixpoint iter_errors (sch : schema) (instance : pyval) : list violation :=
  match sch with
  | Mk ty properties required =>
      (match ty with
       | Some t => if is_type instance t then [] else [NotOfType instance t]
       | None => []
       end)
      ++ (match instance with
          | PyDict d =>
              flat_map (fun ps =>
                          match d !! ps.1 with
                          | Some v => iter_errors ps.2 v
                          | None => []
                          end) properties
          | _ => []
          end)
      ++ (match instance with
          | PyDict d =>
              flat_map (fun p =>
                          match d !! p with
                          | Some _ => []
                          | None => [RequiredMissing instance p]
                          end) required
          | _ => []
          end)
  end.

(** [validate(instance=..., schema=...)]: returns [None] when there is no
    violation and raises a [ValidationError] otherwise (jsonschema raises
    the best match among the violations; the exception here carries them
    all). *)
Definition validate (instance : pyval) (sch : schema) : result unit :=
  match iter_errors sch instance with
  | [] => Ok tt
  | errs => Err (ValidationError instance errs)
  end.

Definition string_schema : schema := Mk (Some TString) [] [].

Definition sql_schema : schema :=
  Mk (Some TObject)
     [(PyStr.lit "sqlQuery", string_schema);
      (PyStr.lit "description", string_schema)]
     [PyStr.lit "sqlQuery"].

Definition response_schema : schema :=
  Mk (Some TObject)
     [(PyStr.lit "message", string_schema)]
     [PyStr.lit "message"].

End Schema.

(** ** The structured-response extractor *)

Module Extractor.
Section WithExternal.
Context {ext : External}.

Definition fence_json : str := PyStr.lit "```json".
Definition fence : str := PyStr.lit "```".

(** [json.loads] as a computation that may raise. *)
Definition loads (text : str) : result pyval :=
  match json_loads text with
  | inl v => Ok v
  | inr msg => Err (JSONDecodeError msg)
  end.

(** The text handed to the second parse (lines 164-171 of the source). *)
Definition json_text_of (text : str) : result str :=
  json_text ←
    (if PyStr.contains fence_json text then
       part ← index (PyStr.split fence_json text) 1;
       index (PyStr.split fence part) 0
     else if PyStr.contains fence text then
       part ← index (PyStr.split fence text) 1;
       index (PyStr.split fence part) 0
     else
       Ok text);
  Ok (PyStr.strip json_text).

(** [extract_json_from_response(text)].  The two [print] calls of the
    handler write to the terminal only. *)
Definition extract_json_from_response (text : str) : result pyval :=
  match json_loads text with
  | inl v => Ok v
  | inr _ =>
      try_except
        (json_text ← json_text_of text;
         loads json_text)
        (fun e => Err e)
  end.

(** The character the fence markers are made of. *)
Definition backtick : N := 96%N.

End WithExternal.
End Extractor.

(** ** The two-stage orchestrator *)

Module Orchestrator.
Import Schema Extractor.

(** The externally visible actions of [ask], in the order they happen. *)
Inductive event : Type :=
  | EvSqlSend (msg : str)       (* sql_chat.send_message(msg) *)
  | EvExecute (query : str)     (* cur.execute(query) *)
  | EvRespSend (msg : str)      (* response_chat.send_message(msg) *)
  | EvSleep (secs : Z).         (* time.sleep(secs) *)

Section WithExternal.
Context {ext : External}.

(** The module-level objects [sql_chat], [response_chat] and [con]/[cur]
    that every call of [ask] shares. *)
Record state : Type := MkState {
  sql_chat : SqlSession;
  response_chat : RespSession;
  con : Conn
}.

(** A statement block of [ask]: from the state of the collaborators to an
    outcome, their new state and the actions performed. *)
Definition M (A : Type) : Type := state -> result A * state * list event.

#[export] Instance M_ret : MRet M := fun A a st => (Ok a, st, []).
#[export] Instance M_bind : MBind M := fun A B f m st =>
  match m st with
  | (Ok a, st1, t1) =>
      match f a st1 with
      | (r, st2, t2) => (r, st2, t1 ++ t2)
      end
  | (Err e, st1, t1) => (Err e, st1, t1)
  end.

(** A pure step that may raise. *)
Definition lift {A} (r : result A) : M A := fun st => (r, st, []).

Definition sql_chat_send_message (msg : str) : M str := fun st =>
  match sql_send_message (sql_chat st) msg with
  | (r, s') => (r, MkState s' (response_chat st) (con st), [EvSqlSend msg])
  end.

Definition response_chat_send_message (msg : str) : M str := fun st =>
  match response_send_message (response_chat st) msg with
  | (r, s') => (r, MkState (sql_chat st) s' (con st), [EvRespSend msg])
  end.

(** [cur.execute(query); data = cur.fetchall()].  The driver raises
    [TypeError] when [query] is not a [str]. *)
Definition cur_execute_fetchall (query : pyval) : M Rows := fun st =>
  match query with
  | PyStr q =>
      match cur_execute (con st) q with
      | (r, c') => (r, MkState (sql_chat st) (response_chat st) c', [EvExecute q])
      end
  | _ => (Err TypeError, st, [])
  end.

(** The message of line 195. *)
Definition sql_prompt (question : str) : str :=
  PyStr.lit "Generate a SQL query for this question: " ++ question
  ++ PyStr.LF
  ++ PyStr.lit "Respond only with a JSON object in the specified format.".

(** The message of line 217. *)
Definition response_prompt (question dataText : str) : str :=
  PyStr.lit "The question of the user was: " ++ question
  ++ PyStr.lit "." ++ PyStr.LF ++ PyStr.LF ++ PyStr.lit " ----- "
  ++ PyStr.LF ++ PyStr.LF ++ PyStr.lit " The result of the query is: "
  ++ dataText
  ++ PyStr.LF ++ PyStr.LF ++ PyStr.lit " ---- " ++ PyStr.LF ++ PyStr.LF
  ++ PyStr.lit " Now give user a pretty message in the specified JSON format.".

(** The message of line 239. *)
Definition failure_message (e : exn) : str :=
  PyStr.lit "Sorry, I encountered an error: " ++ str_exn e.

(** Lines 194-201: the SQL-generation step, up to [query]. *)
Definition generate_sql (question : str) : M pyval :=
  sql_text ← sql_chat_send_message (sql_prompt question);
  sql_json ← lift (extract_json_from_response sql_text);
  _ ← lift (validate sql_json sql_schema);
  lift (getitem sql_json (PyStr.lit "sqlQuery")).

(** Lines 208-210: the execution step, up to [dataText]. *)
Definition execute (query : pyval) : M str :=
  data ← cur_execute_fetchall query;
  lift (json_dumps data).

(** Lines 216-229: the answer-generation step, up to the returned value. *)
Definition generate_answer (question dataText : str) : M pyval :=
  response_text ← response_chat_send_message (response_prompt question dataText);
  response_json ← lift (extract_json_from_response response_text);
  _ ← lift (validate response_json response_schema);
  lift (getitem response_json (PyStr.lit "message")).

(** The body of the [try] block (lines 191-229).  Logging and the
    [time.time()] readings it logs do not reach any value or branch. *)
Definition attempt_body (question : str) : M pyval :=
  query ← generate_sql question;
  dataText ← execute query;
  generate_answer question dataText.

Definition tries : Z := 4.

(** [range(n)]. *)
Definition range (n : Z) : list Z := map Z.of_nat (seq 0 (Z.to_nat n)).

Definition time_sleep (secs : Z) (st : state) : state * list event :=
  (st, [EvSleep secs]).

(** The [for attempt in ...] loop (lines 189-239) over the attempts still to
    run.  A loop that runs out of attempts falls off the end of the
    function, which returns [None]. *)
Fixpoint ask_loop (attempts : list Z) (question : str) (st : state)
  : pyval * state * list event :=
  match attempts with
  | [] => (PyNone, st, [])
  | attempt :: rest =>
      match attempt_body question st with
      | (Ok v, st1, t1) => (v, st1, t1)
      | (Err e, st1, t1) =>
          if attempt <? tries - 1 then
            match time_sleep (2 * (attempt + 1)) st1 with
            | (st2, t2) =>
                match ask_loop rest question st2 with
                | (v, st3, t3) => (v, st3, t1 ++ t2 ++ t3)
                end
            end
          else
            (PyTuple [PyStr (failure_message e); PyNone], st1, t1)
      end
  end.

(** [ask(question, history)]. *)
Definition ask (question : str) (history : pyval) (st : state)
  : pyval * state * list event :=
  ask_loop (range tries) question st.

(** Projections of a trace. *)
Definition sleeps (t : list event) : list Z :=
  omap (fun ev => match ev with EvSleep n => Some n | _ => None end) t.

Definition sql_sends (t : list event) : list str :=
  omap (fun ev => match ev with EvSqlSend m => Some m | _ => None end) t.

Definition executed (t : list event) : list str :=
  omap (fun ev => match ev with EvExecute q => Some q | _ => None end) t.

Definition response_sends (t : list event) : list str :=
  omap (fun ev => match ev with EvRespSend m => Some m | _ => None end) t.

(** What the SQL-generation step makes of a reply of the service, and what
    the answer-generation step makes of one (the steps without their
    effects). *)
Definition sql_query_of (reply : result str) : result pyval :=
  sql_text ← reply;
  sql_json ← extract_json_from_response sql_text;
  _ ← validate sql_json sql_schema;
  getitem sql_json (PyStr.lit "sqlQuery").

Definition message_of (reply : result str) : result pyval :=
  response_text ← reply;
  response_json ← extract_json_from_response response_text;
  _ ← validate response_json response_schema;
  getitem response_json (PyStr.lit "message").

(** Two replies of the SQL session that differ at most in the
    [description] of the SQL Directive they carry: both are extracted to
    objects that pass validation and agree on every other field. *)
Definition same_but_description (text1 text2 : str) : Prop :=
  exists d1 d2 : gmap str pyval,
    extract_json_from_response text1 = Ok (PyDict d1)
    /\ extract_json_from_response text2 = Ok (PyDict d2)
    /\ validate (PyDict d1) sql_schema = Ok tt
    /\ validate (PyDict d2) sql_schema = Ok tt
    /\ delete (PyStr.lit "description") d1 = delete (PyStr.lit "description") d2.

Definition reply_sim (r1 r2 : result str) : Prop :=
  r1 = r2
  \/ exists text1 text2,
      r1 = Ok text1 /\ r2 = Ok text2 /\ same_but_description text1 text2.

(** A relation between states of the SQL session is a simulation when
    related states answer every message with replies that differ at most
    in the [description], and move to related states. *)
Definition description_simulation (R : SqlSession -> SqlSession -> Prop) : Prop :=
  forall s1 s2 msg,
    R s1 s2 ->
    reply_sim (sql_send_message s1 msg).1 (sql_send_message s2 msg).1
    /\ R (sql_send_message s1 msg).2 (sql_send_message s2 msg).2.

(** States of the program whose SQL sessions are related by [R] and whose
    other collaborators are in the same state. *)
Definition state_sim (R : SqlSession -> SqlSession -> Prop) (st1 st2 : state) : Prop :=
  R (sql_chat st1) (sql_chat st2)
  /\ response_chat st1 = response_chat st2
  /\ con st1 = con st2.

(** The state a collaborator reaches after a sequence of calls. *)
Definition replay_sql (s : SqlSession) (msgs : list str) : SqlSession :=
  foldl (fun s msg => (sql_send_message s msg).2) s msgs.

Definition replay_response (s : RespSession) (msgs : list str) : RespSession :=
  foldl (fun s msg => (response_send_message s msg).2) s msgs.

Definition replay_queries (c : Conn) (queries : list str) : Conn :=
  foldl (fun c query => (cur_execute c query).2) c queries.

(** The actions of one attempt that sends [prompt] to the SQL session: the
    send alone, the send and an execution, or these and a send to the
    answer session. *)
Inductive attempt_trace (prompt : str) : list event -> Prop :=
  | attempt_sql : attempt_trace prompt [EvSqlSend prompt]
  | attempt_exec query : attempt_trace prompt [EvSqlSend prompt; EvExecute query]
  | attempt_full query msg :
      attempt_trace prompt [EvSqlSend prompt; EvExecute query; EvRespSend msg].

(** The actions of a run whose next sleep, if any, lasts [secs]: attempts
    separated by sleeps that grow by two seconds, ending with an attempt. *)
Inductive run_trace (prompt : str) : Z -> list event -> Prop :=
  | run_last secs seg :
      attempt_trace prompt seg -> run_trace prompt secs seg
  | run_retry secs seg rest :
      attempt_trace prompt seg ->
      run_trace prompt (secs + 2) rest ->
      run_trace prompt secs (seg ++ [EvSleep secs] ++ rest).

End WithExternal.
End Orchestrator.

(** ** A concrete set of collaborators

    Used to run the program on concrete inputs: a decoder for a fragment of
    JSON, scripted chat sessions, and a database of one table whose only
    content is its number of rows. *)

Module Demo.
Import PyStr.
Local Open Scope N_scope.

(** *** A decoder for a fragment of JSON

    The fragment: objects, arrays, strings with the two-character escapes,
    integers, [true], [false] and [null], with JSON's white space.  On a
    text of the fragment the decoder returns what [json.loads] returns, and
    it rejects a text that is not JSON.  Numbers with a fraction or an
    exponent, [\u] escapes and the non-standard constants are outside the
    fragment (rejected here).  The messages do not carry the position that
    the library adds. *)

Definition is_ws (c : N) : bool :=
  (c =? 32) || (c =? 9) || (c =? 10) || (c =? 13).

Fixpoint skip_ws (s : str) : str :=
  match s with
  | c :: s' => if is_ws c then skip_ws s' else s
  | [] => []
  end.

Definition unescape (c : N) : option N :=
  if c =? 34 then Some 34          (* quote *)
  else if c =? 92 then Some 92     (* backslash *)
  else if c =? 47 then Some 47     (* slash *)
  else if c =? 98 then Some 8      (* b: backspace *)
  else if c =? 102 then Some 12    (* f: form feed *)
  else if c =? 110 then Some 10    (* n: line feed *)
  else if c =? 114 then Some 13    (* r: carriage return *)
  else if c =? 116 then Some 9     (* t: tab *)
  else None.

(** The rest of a string literal, after its opening quote. *)
Fixpoint string_body (s acc : str) : option (str * str) :=
  match s with
  | [] => None
  | c :: rest =>
      if c =? 34 then Some (reverse acc, rest)
      else if c =? 92 then
        match rest with
        | [] => None
        | e :: rest' =>
            match unescape e with
            | Some ch => string_body rest' (ch :: acc)
            | None => None
            end
        end
      else if c <? 32 then None
      else string_body rest (c :: acc)
  end.

Definition is_digit (c : N) : bool := (48 <=? c) && (c <=? 57).

Fixpoint digits (s : str) (acc : Z) : Z * str :=
  match s with
  | c :: s' =>
      if is_digit c then digits s' (10 * acc + Z.of_N (c - 48))%Z else (acc, s)
  | [] => (acc, [])
  end.

(** A number outside the fragment is one followed by [.], [e] or [E]. *)
Definition integer_end (r : Z * str) : option (Z * str) :=
  match r.2 with
  | c :: _ => if (c =? 46) || (c =? 101) || (c =? 69) then None else Some r
  | [] => Some r
  end.

Definition unsigned_integer (s : str) : option (Z * str) :=
  match s with
  | c :: s' =>
      if c =? 48 then integer_end (0%Z, s')
      else if is_digit c then integer_end (digits s 0%Z)
      else None
  | [] => None
  end.

Definition integer (s : str) : option (Z * str) :=
  match s with
  | c :: s' =>
      if c =? 45 then
        match unsigned_integer s' with
        | Some (z, r) => Some ((- z)%Z, r)
        | None => None
        end
      else unsigned_integer s
  | [] => None
  end.

(** The members of an object after its opening brace or a comma; a
    repeated key keeps its last value, as in a [dict]. *)
Fixpoint members (value : str -> option (pyval * str)) (k : nat)
    (d : gmap str pyval) (s : str) : option (pyval * str) :=
  match k with
  | O => None
  | S k' =>
      match skip_ws s with
      | c :: r =>
          if c =? 34 then
            match string_body r [] with
            | Some (key, r1) =>
                match skip_ws r1 with
                | c1 :: r2 =>
                    if c1 =? 58 then
                      match value r2 with
                      | Some (v, r3) =>
                          match skip_ws r3 with
                          | c3 :: r4 =>
                              if c3 =? 44 then members value k' (<[key:=v]> d) r4
                              else if c3 =? 125 then Some (PyDict (<[key:=v]> d), r4)
                              else None
                          | [] => None
                          end
                      | None => None
                      end
                    else None
                | [] => None
                end
            | None => None
            end
          else None
      | [] => None
      end
  end.

(** The elements of an array after its opening bracket or a comma. *)
Fixpoint elements (value : str -> option (pyval * str)) (k : nat)
    (acc : list pyval) (s : str) : option (pyval * str) :=
  match k with
  | O => None
  | S k' =>
      match value s with
      | Some (v, r) =>
          match skip_ws r with
          | c :: r' =>
              if c =? 44 then elements value k' (v :: acc) r'
              else if c =? 93 then Some (PyList (reverse (v :: acc)), r')
              else None
          | [] => None
          end
      | None => None
      end
  end.

Fixpoint value (n : nat) (s : str) : option (pyval * str) :=
  match n with
  | O => None
  | S n' =>
      match skip_ws s with
      | [] => None
      | c :: r =>
          if c =? 123 then
            match skip_ws r with
            | c' :: r' =>
                if c' =? 125 then Some (PyDict ∅, r')
                else members (value n') (length r) ∅ r
            | [] => None
            end
          else if c =? 91 then
            match skip_ws r with
            | c' :: r' =>
                if c' =? 93 then Some (PyList [], r')
                else elements (value n') (length r) [] r
            | [] => None
            end
          else if c =? 34 then
            match string_body r [] with
            | Some (s', r') => Some (PyStr s', r')
            | None => None
            end
          else if startswith (lit "true") (c :: r) then Some (PyBool true, drop 4 (c :: r))
          else if startswith (lit "false") (c :: r) then Some (PyBool false, drop 5 (c :: r))
          else if startswith (lit "null") (c :: r) then Some (PyNone, drop 4 (c :: r))
          else
            match integer (c :: r) with
            | Some (z, r') => Some (PyInt z, r')
            | None => None
            end
      end
  end.

Definition decode (text : str) : pyval + str :=
  match value (S (length text)) text with
  | Some (v, r) =>
      match skip_ws r with
      | [] => inl v
      | _ :: _ => inr (lit "Extra data")
      end
  | None => inr (lit "Expecting value")
  end.

(** *** Serialising rows of integers, as [json.dumps] does *)

Definition Z_to_str (z : Z) : str :=
  lit (DecimalString.NilEmpty.string_of_int (Z.to_int z)).

Fixpoint join (sep : str) (l : list str) : str :=
  match l with
  | [] => []
  | [x] => x
  | x :: l' => x ++ sep ++ join sep l'
  end.

Definition dumps_list (items : list str) : str :=
  lit "[" ++ join (lit ", ") items ++ lit "]".

Definition dumps (rows : list (list Z)) : result str :=
  Ok (dumps_list (map (fun row => dumps_list (map Z_to_str row)) rows)).

(** *** Scripted sessions and a one-table database *)

(** A session answers with the replies of its script, in order. *)
Definition scripted (script : list (result str)) (msg : str)
  : result str * list (result str) :=
  match script with
  | r :: script' => (r, script')
  | [] => (Err (Raised (lit "RuntimeError") (lit "no reply")), [])
  end.

Definition count_query : str := lit "SELECT COUNT(*) FROM employees;".
Definition delete_query : str := lit "DELETE FROM employees;".
Definition staff_query : str := lit "SELECT COUNT(*) FROM staff;".

(** The database holds the number of rows of [employees], its only table.
    It runs two statements on it, knows that [staff] does not exist, and
    rejects every other text. *)
Definition run_query (n : Z) (query : str) : result (list (list Z)) * Z :=
  if bool_decide (query = count_query) then (Ok [[n]], n)
  else if bool_decide (query = delete_query) then (Ok [], 0%Z)
  else if bool_decide (query = staff_query) then
    (Err (Raised (lit "OperationalError") (lit "no such table: staff")), n)
  else (Err (Raised (lit "OperationalError") (lit "unsupported statement")), n).

Definition describe (e : exn) : str :=
  match e with
  | JSONDecodeError msg => msg
  | ValidationError _ (RequiredMissing _ p :: _) =>
      lit "'" ++ p ++ lit "' is a required property"
  | ValidationError _ _ => lit "instance is not of the required type"
  | IndexError => lit "list index out of range"
  | KeyError key => lit "'" ++ key ++ lit "'"
  | TypeError => lit "unsupported operand"
  | Raised _ descr => descr
  end.

Definition demo : External := {|
  SqlSession := list (result str);
  RespSession := list (result str);
  Conn := Z;
  Rows := list (list Z);
  json_loads := decode;
  json_dumps := dumps;
  sql_send_message := scripted;
  response_send_message := scripted;
  cur_execute := run_query;
  str_exn := describe
|}.

(** *** Scenarios *)

Import Orchestrator.

Definition question : str := lit "How many employees are in the company".
Definition history : pyval := PyList [].

(** Replies of the SQL session: a SQL Directive with and without a
    description, one without [sqlQuery], one that is not JSON, one whose
    query names a table that does not exist. *)
Definition sql_reply : str :=
  qlit "{'sqlQuery': 'SELECT COUNT(*) FROM employees;', 'description': 'Counts the employees'}".
Definition sql_reply_plain : str :=
  qlit "{'sqlQuery': 'SELECT COUNT(*) FROM employees;'}".
Definition sql_reply_invalid : str :=
  qlit "{'description': 'Counts the employees'}".
Definition sql_reply_garbage : str :=
  lit "I cannot answer that.".
Definition sql_reply_bad_table : str :=
  qlit "{'sqlQuery': 'SELECT COUNT(*) FROM staff;'}".

(** Replies of the answer session: an Answer Directive in a JSON-tagged
    fence, and an object without [message]. *)
Definition answer_reply : str :=
  lit "```json" ++ LF ++ qlit "{'message': 'There are 5 employees.'}" ++ LF ++ lit "```".
Definition answer_reply_invalid : str :=
  qlit "{'text': 'There are 5 employees.'}".

Definition start (sql_script response_script : list (result str)) (rows : Z)
  : @state demo :=
  @MkState demo sql_script response_script rows.

(** Three failures of the SQL step (validation, validation, parse), then a
    good attempt. *)
Definition retry_state : @state demo :=
  start [Ok sql_reply_invalid; Ok sql_reply_invalid; Ok sql_reply_garbage; Ok sql_reply]
        [Ok answer_reply] 5%Z.

(** A failure of the SQL step in every attempt. *)
Definition no_sql_state : @state demo :=
  start [Ok sql_reply_garbage; Ok sql_reply_invalid; Ok sql_reply_invalid;
         Ok sql_reply_invalid]
        [Ok answer_reply] 5%Z.

(** A failure of the execution step in every attempt. *)
Definition no_table_state : @state demo :=
  start [Ok sql_reply_bad_table; Ok sql_reply_bad_table; Ok sql_reply_bad_table;
         Ok sql_reply_bad_table]
        [Ok answer_reply] 5%Z.

(** A failure of the execution step, then a good attempt. *)
Definition bad_table_then_good_state : @state demo :=
  start [Ok sql_reply_bad_table; Ok sql_reply] [Ok answer_reply] 5%Z.

(** A failure of the answer step (validation), then a good attempt. *)
Definition bad_answer_then_good_state : @state demo :=
  start [Ok sql_reply; Ok sql_reply] [Ok answer_reply_invalid; Ok answer_reply] 5%Z.

(** Two states that differ in the description of the SQL reply. *)
Definition described_state : @state demo :=
  start [Ok sql_reply] [Ok answer_reply] 5%Z.
Definition undescribed_state : @state demo :=
  start [Ok sql_reply_plain] [Ok answer_reply] 5%Z.

(** Scripts whose replies differ, turn by turn, at most in the description. *)
Definition script_sim : @SqlSession demo -> @SqlSession demo -> Prop :=
  Forall2 (@reply_sim demo).

(** Replies for the extractor. *)
Definition two_json_fences : str :=
  lit "Here: ```json" ++ qlit "{'message': 'hi'}" ++ lit "``` or ```json"
  ++ qlit "{'message': 'ho'}" ++ lit "```".
Definition unclosed_json_fence : str :=
  lit "```json" ++ LF ++ qlit "{'sqlQuery': 'SELECT 1'}" ++ LF.
Definition backticks_before_json_fence : str :=
  lit "```json" ++ qlit "{'sqlQuery': 'SELECT 1'}" ++ lit "`````json".

(** A fenced block inside prose. *)
Definition block_pre : str := lit "Here is the query: ".
Definition block_body : str := LF ++ qlit "{'sqlQuery': 'SELECT 1'}" ++ LF.
Definition block_post : str := lit " Hope this helps.".
Definition unclosed_fence : str := lit "```" ++ LF ++ qlit "{'message': 'hi'}".
Definition generic_then_json_block : str :=
  lit "```" ++ lit "SELECT 1" ++ lit "```" ++ lit " as JSON: "
  ++ lit "```json" ++ block_body ++ lit "```".
Definition json_block : str := lit "```json" ++ block_body ++ lit "```".

(** Objects for the validator. *)
Definition directive : gmap str pyval :=
  {[ lit "sqlQuery" := PyStr count_query ]}.
Definition description_only : gmap str pyval :=
  {[ lit "description" := PyStr (lit "Counts the employees") ]}.

(** The state before attempt [i] of a run from [st], with the exception
    and the actions of that attempt. *)
Definition state_before (st : @state demo) (i : nat) : @state demo :=
  Nat.iter i (fun st' => (attempt_body question st').1.2) st.

Definition error_of (st : @state demo) (i : nat) : exn :=
  match (attempt_body question (state_before st i)).1.1 with
  | Err e => e
  | Ok _ => IndexError
  end.

Definition trace_of (st : @state demo) (i : nat) : list event :=
  (attempt_body question (state_before st i)).2.

End Demo.


(** * Properties *)

(** ** Strings *)

Section StrFacts.
Import PyStr.
Local Open Scope nat_scope.
Implicit Types (p sub sep s : str).

Lemma startswith_app p s : startswith p s = true <-> exists r, s = p ++ r.
Proof.
  revert s; induction p as [|a p IH]; intros [|b s]; simpl.
  - split; [exists []; reflexivity | reflexivity].
  - split; [eexists; reflexivity | reflexivity].
  - split; [discriminate | intros [r Hr]; discriminate].
  - rewrite andb_true_iff, N.eqb_eq, IH. split.
    + intros [-> [r ->]]. eexists; reflexivity.
    + intros [r Hr]. injection Hr as -> ->. eauto.
Qed.

Lemma startswith_length p s : startswith p s = true -> length p <= length s.
Proof.
  intros [r ->]%startswith_app. rewrite length_app. lia.
Qed.

Lemma startswith_take p n s :
  startswith p (take n s) = true <-> startswith p s = true /\ length p <= n.
Proof.
  revert n s; induction p as [|a p IH]; intros n s; simpl.
  - split; [intros _; split; [reflexivity | lia] | reflexivity].
  - destruct n as [|n], s as [|b s]; simpl;
      try (split; [discriminate | intros [? ?]; first [discriminate | lia]]).
    rewrite !andb_true_iff, IH. split.
    + intros (? & ? & ?). repeat split; [assumption .. | lia].
    + intros ((? & ?) & ?). repeat split; [assumption .. | lia].
Qed.

Lemma startswith_trans p p' s :
  startswith p p' = true -> startswith p' s = true -> startswith p s = true.
Proof.
  rewrite !startswith_app. intros [r ->] [r' ->].
  exists (r ++ r'). by rewrite <- app_assoc.
Qed.

(** [find] returns an occurrence, and the lowest one. *)
Lemma find_Some sub s i :
  find sub s = Some i ->
  startswith sub (drop i s) = true
  /\ forall j, j < i -> startswith sub (drop j s) = false.
Proof.
  revert i; induction s as [|c s IH]; intros i; simpl.
  - destruct (startswith sub []) eqn:E; [|discriminate].
    intros [= <-]. split; [assumption | lia].
  - destruct (startswith sub (c :: s)) eqn:E.
    + intros [= <-]. split; [assumption | lia].
    + destruct (find sub s) as [i'|]; [|discriminate].
      intros [= <-]. destruct (IH i' eq_refl) as [H1 H2].
      split; [assumption |].
      intros [|j] Hj; simpl; [assumption | apply H2; lia].
Qed.

Lemma find_None sub s j : find sub s = None -> startswith sub (drop j s) = false.
Proof.
  revert j; induction s as [|c s IH]; intros j; simpl.
  - destruct (startswith sub []) eqn:E; [discriminate|].
    intros _. by destruct j.
  - destruct (startswith sub (c :: s)) eqn:E; [discriminate|].
    destruct (find sub s) as [i'|] eqn:F; [discriminate|].
    intros _. destruct j as [|j]; simpl; [assumption | by apply IH].
Qed.

Lemma find_Some_intro sub s i :
  startswith sub (drop i s) = true ->
  (forall j, j < i -> startswith sub (drop j s) = false) ->
  find sub s = Some i.
Proof.
  intros Hi Hmin. destruct (find sub s) as [i0|] eqn:F.
  - destruct (find_Some _ _ _ F) as [H0 Hmin0].
    destruct (Nat.lt_trichotomy i0 i) as [Hlt | [-> | Hgt]].
    + rewrite (Hmin _ Hlt) in H0. discriminate.
    + reflexivity.
    + rewrite (Hmin0 _ Hgt) in Hi. discriminate.
  - rewrite (find_None _ _ i F) in Hi. discriminate.
Qed.

Lemma find_None_intro sub s :
  (forall j, startswith sub (drop j s) = false) -> find sub s = None.
Proof.
  intros H. destruct (find sub s) as [i|] eqn:F; [|reflexivity].
  destruct (find_Some _ _ _ F) as [H0 _]. rewrite H in H0. discriminate.
Qed.

Lemma find_bound sub s i :
  sub <> [] -> find sub s = Some i -> i + length sub <= length s.
Proof.
  intros Hsub [H _]%find_Some. apply startswith_length in H.
  rewrite length_drop in H. destruct sub; [done | simpl in *; lia].
Qed.

Lemma find_nil_None sub : sub <> [] -> find sub [] = None.
Proof. destruct sub; [done | reflexivity]. Qed.

Lemma contains_true sub s : contains sub s = true <-> exists i, find sub s = Some i.
Proof.
  unfold contains. destruct (find sub s); split; eauto; try discriminate.
  intros [? ?]; discriminate.
Qed.

Lemma contains_false sub s : contains sub s = false <-> find sub s = None.
Proof. unfold contains. by destruct (find sub s). Qed.

(** A marker that extends another occurs only where the shorter one does. *)
Lemma find_None_extend sub sub' s :
  startswith sub sub' = true -> find sub s = None -> find sub' s = None.
Proof.
  intros Hp Hn. apply find_None_intro. intros j.
  destruct (startswith sub' (drop j s)) eqn:E; [|reflexivity].
  pose proof (find_None _ _ j Hn) as Hj.
  rewrite (startswith_trans _ _ _ Hp E) in Hj. discriminate.
Qed.

(** The bound of [split_upto] is enough: [split] is Python's loop. *)
Lemma split_upto_enough sep n m s :
  sep <> [] -> length s <= n -> length s <= m ->
  split_upto n sep s = split_upto m sep s.
Proof.
  intros Hsep. revert m s; induction n as [|n IH]; intros m s Hn Hm.
  - destruct s; [|simpl in Hn; lia].
    destruct m; cbn [split_upto]; [reflexivity | by rewrite find_nil_None].
  - destruct m as [|m]; cbn [split_upto].
    + destruct s; [|simpl in Hm; lia]. by rewrite find_nil_None.
    + destruct (find sep s) as [i|] eqn:F; [|reflexivity].
      pose proof (find_bound _ _ _ Hsep F).
      assert (0 < length sep) by (destruct sep; [done | simpl; lia]).
      f_equal. apply IH; rewrite length_drop; lia.
Qed.

Lemma split_unfold sep s :
  sep <> [] ->
  split sep s =
    match find sep s with
    | None => [s]
    | Some i => take i s :: split sep (drop (i + length sep) s)
    end.
Proof.
  intros Hsep. unfold split. destruct s as [|c s].
  - cbn [length split_upto]. by rewrite find_nil_None.
  - cbn [length split_upto]. destruct (find sep (c :: s)) as [i|] eqn:F; [|reflexivity].
    pose proof (find_bound _ _ _ Hsep F) as Hb. cbn [length] in Hb.
    assert (0 < length sep) by (destruct sep; [done | simpl; lia]).
    f_equal. apply split_upto_enough; [assumption | rewrite length_drop; simpl; lia | lia].
Qed.

Lemma split_head sep s : sep <> [] -> index (split sep s) 0 = Ok (before sep s).
Proof.
  intros Hsep. rewrite split_unfold by assumption. unfold before.
  by destruct (find sep s).
Qed.

Lemma split_second sep s i :
  sep <> [] -> find sep s = Some i ->
  index (split sep s) 1 = Ok (before sep (after sep s)).
Proof.
  intros Hsep F. rewrite split_unfold by assumption. unfold after. rewrite F.
  change (index (?x :: ?l) 1) with (index l 0). by apply split_head.
Qed.

(** The text before the first marker holds no marker. *)
Lemma find_before sep s : sep <> [] -> find sep (before sep s) = None.
Proof.
  intros Hsep. unfold before. destruct (find sep s) as [i|] eqn:F; [|assumption].
  apply find_None_intro. intros j.
  destruct (startswith sep (drop j (take i s))) eqn:E; [|reflexivity].
  destruct (find_Some _ _ _ F) as [_ Hmin].
  assert (0 < length sep) by (destruct sep; [done | simpl; lia]).
  destruct (decide (j < i)) as [Hj|Hj].
  - rewrite skipn_firstn_comm in E. apply startswith_take in E as [E ?].
    rewrite (Hmin j Hj) in E. discriminate.
  - rewrite drop_ge in E by (rewrite length_take; lia).
    apply startswith_length in E. simpl in E. lia.
Qed.

Lemma before_idemp sep s : sep <> [] -> before sep (before sep s) = before sep s.
Proof.
  intros Hsep. unfold before at 1. by rewrite find_before.
Qed.

(** Cutting at a longer marker first does not change the text before the
    shorter one, unless the first short marker overlaps the long one
    without starting at the same place. *)
Lemma before_before sep sep' s :
  sep <> [] -> startswith sep sep' = true ->
  (forall j k, find sep s = Some j -> find sep' s = Some k ->
               j = k \/ j + length sep <= k) ->
  before sep (before sep' s) = before sep s.
Proof.
  intros Hsep Hp Hno. unfold before at 2.
  destruct (find sep' s) as [k|] eqn:Fk; [|reflexivity].
  destruct (find_Some _ _ _ Fk) as [Hk _].
  pose proof (startswith_trans _ _ _ Hp Hk) as Hk'.
  destruct (find sep s) as [j|] eqn:Fj;
    [|rewrite (find_None _ _ k Fj) in Hk'; discriminate].
  destruct (find_Some _ _ _ Fj) as [Hj Hmin].
  assert (j <= k) as Hjk.
  { destruct (decide (j <= k)); [assumption|].
    rewrite (Hmin k) in Hk' by lia. discriminate. }
  assert (0 < length sep) by (destruct sep; [done | simpl; lia]).
  assert (forall q, startswith sep (drop q (take k s)) = true ->
                    startswith sep (drop q s) = true /\ q + length sep <= k) as Hocc.
  { intros q E. destruct (decide (q <= k)) as [Hq|Hq].
    - rewrite skipn_firstn_comm in E. apply startswith_take in E as [E ?].
      split; [assumption | lia].
    - rewrite drop_ge in E by (rewrite length_take; lia).
      apply startswith_length in E. simpl in E. lia. }
  unfold before. rewrite Fj.
  destruct (Hno j k eq_refl eq_refl) as [-> | Hfar].
  - replace (find sep (take k s)) with (@None nat); [reflexivity|].
    symmetry. apply find_None_intro. intros q.
    destruct (startswith sep (drop q (take k s))) eqn:E; [|reflexivity].
    apply Hocc in E as [E ?]. rewrite (Hmin q) in E by lia. discriminate.
  - replace (find sep (take k s)) with (Some j).
    + rewrite take_take. f_equal. lia.
    + symmetry. apply find_Some_intro.
      * rewrite skipn_firstn_comm. apply startswith_take. split; [assumption | lia].
      * intros q Hq. destruct (startswith sep (drop q (take k s))) eqn:E; [|reflexivity].
        apply Hocc in E as [E ?]. rewrite (Hmin q Hq) in E. discriminate.
Qed.

End StrFacts.

(** ** The extractor *)

Section ExtractorFacts.
Import PyStr Extractor.
Context {ext : External}.
Local Open Scope nat_scope.

Lemma fence_nonempty : fence <> [].
Proof. discriminate. Qed.

Lemma fence_json_nonempty : fence_json <> [].
Proof. discriminate. Qed.

Lemma fence_json_starts_with_fence : startswith fence fence_json = true.
Proof. reflexivity. Qed.

(** The text of the second parse when a JSON-tagged fence is present. *)
Lemma json_text_of_json_fence text :
  contains fence_json text = true ->
  json_text_of text =
    Ok (strip (before fence (before fence_json (after fence_json text)))).
Proof.
  intros Hc. unfold json_text_of. rewrite Hc.
  apply contains_true in Hc as [i Hi].
  rewrite (split_second _ _ _ fence_json_nonempty Hi). cbn [mbind result_bind].
  rewrite (split_head _ _ fence_nonempty). reflexivity.
Qed.

(** ... when only generic fences are present ... *)
Lemma json_text_of_fence text :
  contains fence_json text = false -> contains fence text = true ->
  json_text_of text = Ok (strip (before fence (after fence text))).
Proof.
  intros Hn Hc. unfold json_text_of. rewrite Hn, Hc.
  apply contains_true in Hc as [i Hi].
  rewrite (split_second _ _ _ fence_nonempty Hi). cbn [mbind result_bind].
  rewrite (split_head _ _ fence_nonempty).
  by rewrite (before_idemp _ _ fence_nonempty).
Qed.

(** ... and when there is no fence. *)
Lemma json_text_of_plain text :
  contains fence_json text = false -> contains fence text = false ->
  json_text_of text = Ok (strip text).
Proof. intros Hn Hc. unfold json_text_of. by rewrite Hn, Hc. Qed.

(** The indexing of lines 165 and 167 never raises. *)
Lemma json_text_of_total text : exists s, json_text_of text = Ok s.
Proof.
  destruct (contains fence_json text) eqn:Hj;
    [eauto using json_text_of_json_fence|].
  destruct (contains fence text) eqn:Hf;
    eauto using json_text_of_fence, json_text_of_plain.
Qed.

Lemma extract_fallback text msg s :
  json_loads text = inr msg -> json_text_of text = Ok s ->
  extract_json_from_response text = loads s.
Proof.
  intros Hl Hs. unfold extract_json_from_response. rewrite Hl, Hs.
  cbn [mbind result_bind]. unfold try_except. by destruct (loads s).
Qed.

(** The only exception the extractor raises is the decoder's. *)
Lemma extract_raises_decode_error text e :
  extract_json_from_response text = Err e -> exists msg, e = JSONDecodeError msg.
Proof.
  unfold extract_json_from_response.
  destruct (json_loads text) as [v|msg] eqn:Hl; [discriminate|].
  destruct (json_text_of_total text) as [s ->]. cbn [mbind result_bind].
  unfold try_except, loads. destruct (json_loads s); [discriminate|].
  intros [= <-]. eauto.
Qed.

Lemma extract_whole (text : str) (v : pyval) :
  json_loads text = inl v -> extract_json_from_response text = Ok v.
Proof. intros H. unfold extract_json_from_response. by rewrite H. Qed.

(** C8: a text that is JSON as a whole is returned as [json.loads] decodes
    it; no fence is looked for. *)
Theorem extract_direct (text : str) (v : pyval) :
  json_loads text = inl v -> extract_json_from_response text = Ok v.
Proof. exact (extract_whole text v). Qed.

(** C3 (as amended): the extractor first parses the whole text.  When that
    fails and a JSON-tagged fence is present, it parses the text after the
    first such marker, cut at the next JSON-tagged marker and then at the
    first fence marker of what is left; this is the text up to the next
    fence marker unless that marker overlaps a later JSON-tagged marker
    without starting with it.  Otherwise, when a fence marker is present,
    it parses the text between the first marker and the next one; otherwise
    the whole text.  The candidate is stripped before the second parse, and
    the outcome of that parse, a value or the [JSONDecodeError], is the
    outcome of the call. *)
Theorem extract_fallback_order (text : str) :
  (forall v, json_loads text = inl v -> extract_json_from_response text = Ok v)
  /\ (forall msg, json_loads text = inr msg ->
      (contains fence_json text = true ->
         extract_json_from_response text =
           loads (strip (before fence (before fence_json (after fence_json text))))
         /\ ((forall j k, find fence (after fence_json text) = Some j ->
                          find fence_json (after fence_json text) = Some k ->
                          j = k \/ j + length fence <= k) ->
             extract_json_from_response text =
               loads (strip (before fence (after fence_json text)))))
      /\ (contains fence_json text = false -> contains fence text = true ->
            extract_json_from_response text =
              loads (strip (before fence (after fence text))))
      /\ (contains fence_json text = false -> contains fence text = false ->
            extract_json_from_response text = loads (strip text))).
Proof.
  split; [intros v; apply extract_whole|].
  intros msg Hl. split; [|split].
  - intros Hc. split.
    + eapply extract_fallback; eauto using json_text_of_json_fence.
    + intros Hno.
      rewrite <- (before_before fence fence_json) by
        (first [exact fence_nonempty | exact fence_json_starts_with_fence | exact Hno]).
      eapply extract_fallback; eauto using json_text_of_json_fence.
  - intros Hn Hc. eapply extract_fallback; eauto using json_text_of_fence.
  - intros Hn Hc. eapply extract_fallback; eauto using json_text_of_plain.
Qed.

(** C10: when the whole text is not JSON and no fence marker follows the
    first JSON-tagged marker, everything after that marker is stripped and
    parsed; if it is JSON the extraction succeeds. *)
Theorem extract_unclosed_json_fence (text msg : str) :
  json_loads text = inr msg ->
  contains fence_json text = true ->
  contains fence (after fence_json text) = false ->
  extract_json_from_response text = loads (strip (after fence_json text))
  /\ forall v, json_loads (strip (after fence_json text)) = inl v ->
               extract_json_from_response text = Ok v.
Proof.
  intros Hl Hc Hn. apply contains_false in Hn.
  assert (extract_json_from_response text = loads (strip (after fence_json text))) as E.
  { rewrite (extract_fallback _ _ _ Hl (json_text_of_json_fence _ Hc)).
    unfold before at 2.
    rewrite (find_None_extend _ _ _ fence_json_starts_with_fence Hn).
    unfold before. by rewrite Hn. }
  split; [assumption|].
  intros v Hv. rewrite E. unfold loads. by rewrite Hv.
Qed.

End ExtractorFacts.

(** ** The validator *)

Section ValidatorFacts.
Import PyStr Schema.

Lemma validate_sql_schema (v : pyval) :
  validate v sql_schema = Ok tt <->
  exists d : gmap str pyval,
    v = PyDict d
    /\ (exists s, d !! lit "sqlQuery" = Some (PyStr s))
    /\ (forall x, d !! lit "description" = Some x -> exists s, x = PyStr s).
Proof.
  unfold validate, sql_schema, string_schema. split.
  - destruct v as [| | | | |?|?|d]; try discriminate.
    cbn [iter_errors is_type flat_map fst snd app].
    intros H. exists d. split; [reflexivity|].
    destruct (d !! lit "sqlQuery") as [q|] eqn:Eq; cycle 1.
    { rewrite app_nil_r in H.
      destruct (d !! lit "description") as [[]|]; discriminate. }
    destruct q; try discriminate. split; [eauto|].
    intros x Hx. rewrite Hx in H. destruct x; try discriminate. eauto.
  - intros (d & -> & (s & Hs) & Hx).
    cbn [iter_errors is_type flat_map fst snd app]. rewrite Hs.
    destruct (d !! lit "description") as [x|] eqn:Ed; [|reflexivity].
    destruct (Hx x eq_refl) as [s' ->]. reflexivity.
Qed.

Lemma validate_response_schema (v : pyval) :
  validate v response_schema = Ok tt <->
  exists (d : gmap str pyval) s, v = PyDict d /\ d !! lit "message" = Some (PyStr s).
Proof.
  unfold validate, response_schema, string_schema. split.
  - destruct v as [| | | | |?|?|d]; try discriminate.
    cbn [iter_errors is_type flat_map fst snd app].
    destruct (d !! lit "message") as [q|] eqn:Eq; [|discriminate].
    destruct q; try discriminate. eauto.
  - intros (d & s & -> & Hs).
    cbn [iter_errors is_type flat_map fst snd app]. by rewrite Hs.
Qed.

(** A call of [validate] returns normally or raises a [ValidationError]
    about the instance. *)
Lemma validate_raises (v : pyval) (sch : schema) :
  validate v sch = Ok tt
  \/ exists errs, errs <> [] /\ validate v sch = Err (ValidationError v errs).
Proof.
  unfold validate. destruct (iter_errors sch v) as [|e errs]; [by left|].
  right. by exists (e :: errs).
Qed.

End ValidatorFacts.

(** ** The orchestrator *)

Section OrchestratorFacts.
Import PyStr Schema Extractor Orchestrator.
Context {ext : External}.

(** *** The three steps of an attempt *)

Lemma generate_sql_run (q : str) (st : state) :
  generate_sql q st =
    (sql_query_of (sql_send_message (sql_chat st) (sql_prompt q)).1,
     MkState (sql_send_message (sql_chat st) (sql_prompt q)).2
             (response_chat st) (con st),
     [EvSqlSend (sql_prompt q)]).
Proof.
  unfold generate_sql, sql_query_of, sql_chat_send_message, lift.
  unfold mbind at 1 2 3, M_bind.
  destruct (sql_send_message (sql_chat st) (sql_prompt q)) as [[text|e] s'];
    cbn [fst snd mbind result_bind]; [|reflexivity].
  destruct (extract_json_from_response text) as [sql_json|e];
    cbn [mbind result_bind]; [|reflexivity].
  destruct (validate sql_json sql_schema) as [[]|e];
    cbn [mbind result_bind]; reflexivity.
Qed.

Lemma execute_run (query : pyval) (st : state) :
  execute query st =
    match query with
    | PyStr q0 =>
        (data ← (cur_execute (con st) q0).1; json_dumps data,
         MkState (sql_chat st) (response_chat st) (cur_execute (con st) q0).2,
         [EvExecute q0])
    | _ => (Err TypeError, st, [])
    end.
Proof.
  unfold execute, cur_execute_fetchall, lift. unfold mbind at 1, M_bind.
  destruct query; try reflexivity.
  destruct (cur_execute (con st) s) as [[data|e] c'];
    cbn [fst snd mbind result_bind]; reflexivity.
Qed.

Lemma generate_answer_run (q dataText : str) (st : state) :
  generate_answer q dataText st =
    (message_of (response_send_message (response_chat st) (response_prompt q dataText)).1,
     MkState (sql_chat st)
             (response_send_message (response_chat st) (response_prompt q dataText)).2
             (con st),
     [EvRespSend (response_prompt q dataText)]).
Proof.
  unfold generate_answer, message_of, response_chat_send_message, lift.
  unfold mbind at 1 2 3, M_bind.
  destruct (response_send_message (response_chat st) (response_prompt q dataText))
    as [[text|e] s']; cbn [fst snd mbind result_bind]; [|reflexivity].
  destruct (extract_json_from_response text) as [response_json|e];
    cbn [mbind result_bind]; [|reflexivity].
  destruct (validate response_json response_schema) as [[]|e];
    cbn [mbind result_bind]; reflexivity.
Qed.

(** A query that passed the SQL step is the string under [sqlQuery] of a
    validated object. *)
Lemma sql_query_of_Ok (reply : result str) (v : pyval) :
  sql_query_of reply = Ok v ->
  exists text (d : gmap str pyval) query,
    reply = Ok text
    /\ extract_json_from_response text = Ok (PyDict d)
    /\ validate (PyDict d) sql_schema = Ok tt
    /\ d !! lit "sqlQuery" = Some (PyStr query)
    /\ v = PyStr query.
Proof.
  unfold sql_query_of. destruct reply as [text|e]; [|discriminate].
  cbn [mbind result_bind].
  destruct (extract_json_from_response text) as [sql_json|e] eqn:X; [|discriminate].
  cbn [mbind result_bind].
  destruct (validate sql_json sql_schema) as [[]|e] eqn:V; [|discriminate].
  cbn [mbind result_bind]. intros G.
  destruct (proj1 (validate_sql_schema _) V) as (d & -> & (s & Hs) & _).
  unfold getitem in G. rewrite Hs in G. injection G as <-.
  exists text, d, s. repeat split; assumption.
Qed.

Lemma message_of_Ok (reply : result str) (v : pyval) :
  message_of reply = Ok v ->
  exists text (d : gmap str pyval) m,
    reply = Ok text
    /\ extract_json_from_response text = Ok (PyDict d)
    /\ validate (PyDict d) response_schema = Ok tt
    /\ d !! lit "message" = Some (PyStr m)
    /\ v = PyStr m.
Proof.
  unfold message_of. destruct reply as [text|e]; [|discriminate].
  cbn [mbind result_bind].
  destruct (extract_json_from_response text) as [response_json|e] eqn:X; [|discriminate].
  cbn [mbind result_bind].
  destruct (validate response_json response_schema) as [[]|e] eqn:V; [|discriminate].
  cbn [mbind result_bind]. intros G.
  destruct (proj1 (validate_response_schema _) V) as (d & s & -> & Hs).
  unfold getitem in G. rewrite Hs in G. injection G as <-.
  exists text, d, s. repeat split; assumption.
Qed.

(** *** One attempt *)

Lemma attempt_body_unfold (q : str) (st : state) :
  attempt_body q st =
    match generate_sql q st with
    | (Ok query, st1, t1) =>
        match execute query st1 with
        | (Ok dataText, st2, t2) =>
            match generate_answer q dataText st2 with
            | (r, st3, t3) => (r, st3, t1 ++ t2 ++ t3)
            end
        | (Err e, st2, t2) => (Err e, st2, t1 ++ t2)
        end
    | (Err e, st1, t1) => (Err e, st1, t1)
    end.
Proof.
  unfold attempt_body. unfold mbind at 1 2, M_bind.
  destruct (generate_sql q st) as [[[query|e] st1] t1]; [|reflexivity].
  destruct (execute query st1) as [[[dataText|e] st2] t2]; [|reflexivity].
  by destruct (generate_answer q dataText st2) as [[r st3] t3].
Qed.

Lemma attempt_body_sql_fails (q : str) (st st1 : state) e t1 :
  generate_sql q st = (Err e, st1, t1) ->
  attempt_body q st = (Err e, st1, t1).
Proof. intros H. by rewrite attempt_body_unfold, H. Qed.

(** A failed SQL step sent one message and left the database and the
    answer session alone. *)
Lemma generate_sql_frame (q : str) (st st1 : state) r t1 :
  generate_sql q st = (r, st1, t1) ->
  t1 = [EvSqlSend (sql_prompt q)]
  /\ con st1 = con st /\ response_chat st1 = response_chat st.
Proof. rewrite generate_sql_run. intros [= <- <- <-]. auto. Qed.

(** Every attempt starts by sending the question to the SQL session, and
    the only query it executes is the one of that reply. *)
Lemma attempt_body_trace (q : str) (st st' : state) r t :
  attempt_body q st = (r, st', t) ->
  (exists tail, t = EvSqlSend (sql_prompt q) :: tail)
  /\ forall query',
       In (EvExecute query') t ->
       exists st1, generate_sql q st = (Ok (PyStr query'), st1, [EvSqlSend (sql_prompt q)]).
Proof.
  rewrite attempt_body_unfold.
  destruct (generate_sql q st) as [[[query|e] st1] t1] eqn:G;
    destruct (generate_sql_frame _ _ _ _ _ G) as (-> & _ & _).
  - rewrite execute_run. destruct query;
      try (intros [= <- <- <-]; split; [eauto|]; intros ? [?|[]]; discriminate).
    destruct (data ← (cur_execute (con st1) s).1; json_dumps data) as [dataText|e].
    + rewrite generate_answer_run. intros [= <- <- <-]. split; [eauto|].
      intros query' [?|[[= <-]|[?|[]]]]; try discriminate. eauto.
    + intros [= <- <- <-]. split; [eauto|].
      intros query' [?|[[= <-]|[]]]; try discriminate. eauto.
  - intros [= <- <- <-]. split; [eauto|]. intros ? [?|[]]; discriminate.
Qed.

(** A successful attempt, step by step. *)
Lemma attempt_body_Ok (q : str) (st st' : state) v t :
  attempt_body q st = (Ok v, st', t) ->
  exists sql_text s1 (d : gmap str pyval) query data c1 dataText
         response_text s2 (d' : gmap str pyval) m,
    sql_send_message (sql_chat st) (sql_prompt q) = (Ok sql_text, s1)
    /\ extract_json_from_response sql_text = Ok (PyDict d)
    /\ validate (PyDict d) sql_schema = Ok tt
    /\ d !! lit "sqlQuery" = Some (PyStr query)
    /\ cur_execute (con st) query = (Ok data, c1)
    /\ json_dumps data = Ok dataText
    /\ response_send_message (response_chat st) (response_prompt q dataText)
       = (Ok response_text, s2)
    /\ extract_json_from_response response_text = Ok (PyDict d')
    /\ validate (PyDict d') response_schema = Ok tt
    /\ d' !! lit "message" = Some (PyStr m)
    /\ v = PyStr m
    /\ st' = MkState s1 s2 c1
    /\ t = [EvSqlSend (sql_prompt q); EvExecute query;
            EvRespSend (response_prompt q dataText)].
Proof.
  rewrite attempt_body_unfold, generate_sql_run.
  destruct (sql_send_message (sql_chat st) (sql_prompt q)) as [reply s1] eqn:S1.
  cbn [fst snd].
  destruct (sql_query_of reply) as [qv|e] eqn:Q; [|discriminate].
  apply sql_query_of_Ok in Q as (sql_text & d & query & -> & Hx & Hv & Hq & ->).
  rewrite execute_run. cbn [con sql_chat response_chat].
  destruct (cur_execute (con st) query) as [[data|e] c1] eqn:C1; [|discriminate].
  cbn [fst snd mbind result_bind].
  destruct (json_dumps data) as [dataText|e] eqn:D; [|discriminate].
  rewrite generate_answer_run. cbn [con sql_chat response_chat].
  destruct (response_send_message (response_chat st) (response_prompt q dataText))
    as [reply s2] eqn:S2. cbn [fst snd].
  destruct (message_of reply) as [mv|e] eqn:A; [|discriminate].
  apply message_of_Ok in A as (response_text & d' & m & -> & Hx' & Hv' & Hm & ->).
  intros [= <- <- <-].
  exists sql_text, s1, d, query, data, c1, dataText, response_text, s2, d', m.
  repeat split; assumption.
Qed.

(** *** The retry loop *)

Lemma ask_loop_ok (a : Z) rest (q : str) (st st1 : state) v t1 :
  attempt_body q st = (Ok v, st1, t1) ->
  ask_loop (a :: rest) q st = (v, st1, t1).
Proof. intros H. cbn [ask_loop]. by rewrite H. Qed.

Lemma ask_loop_retry (a : Z) rest (q : str) (st st1 : state) e t1 :
  attempt_body q st = (Err e, st1, t1) ->
  a < tries - 1 ->
  ask_loop (a :: rest) q st =
    (let '(v, st3, t3) := ask_loop rest q st1 in
     (v, st3, t1 ++ [EvSleep (2 * (a + 1))] ++ t3)).
Proof.
  intros H Ha. cbn [ask_loop]. rewrite H.
  apply Z.ltb_lt in Ha. rewrite Ha. unfold time_sleep.
  by destruct (ask_loop rest q st1) as [[v st3] t3].
Qed.

Lemma ask_loop_exhausted (a : Z) rest (q : str) (st st1 : state) e t1 :
  attempt_body q st = (Err e, st1, t1) ->
  tries - 1 <= a ->
  ask_loop (a :: rest) q st =
    (PyTuple [PyStr (failure_message e); PyNone], st1, t1).
Proof.
  intros H Ha. cbn [ask_loop]. rewrite H.
  apply Z.ltb_ge in Ha. by rewrite Ha.
Qed.

Lemma range_tries : range tries = [0; 1; 2; 3].
Proof. reflexivity. Qed.

(** When every attempt fails, the function returns the failure message of
    the last exception, in a pair with [None] (line 239). *)
Lemma ask_all_attempts_fail (q : str) (h : pyval)
    (st0 st1 st2 st3 st4 : state) e1 e2 e3 e4 t1 t2 t3 t4 :
  attempt_body q st0 = (Err e1, st1, t1) ->
  attempt_body q st1 = (Err e2, st2, t2) ->
  attempt_body q st2 = (Err e3, st3, t3) ->
  attempt_body q st3 = (Err e4, st4, t4) ->
  ask q h st0 =
    (PyTuple [PyStr (failure_message e4); PyNone], st4,
     t1 ++ [EvSleep 2] ++ t2 ++ [EvSleep 4] ++ t3 ++ [EvSleep 6] ++ t4).
Proof.
  intros H1 H2 H3 H4. unfold ask. rewrite range_tries.
  rewrite (ask_loop_retry _ _ _ _ _ _ _ H1) by (unfold tries; lia).
  rewrite (ask_loop_retry _ _ _ _ _ _ _ H2) by (unfold tries; lia).
  rewrite (ask_loop_retry _ _ _ _ _ _ _ H3) by (unfold tries; lia).
  rewrite (ask_loop_exhausted _ _ _ _ _ _ _ H4) by (unfold tries; lia).
  reflexivity.
Qed.

(** When the SQL step fails in every attempt, nothing is executed and the
    database is as it was. *)
Lemma ask_sql_never_succeeds (q : str) (h : pyval)
    (st0 st1 st2 st3 st4 : state) e1 e2 e3 e4 t1 t2 t3 t4 :
  generate_sql q st0 = (Err e1, st1, t1) ->
  generate_sql q st1 = (Err e2, st2, t2) ->
  generate_sql q st2 = (Err e3, st3, t3) ->
  generate_sql q st3 = (Err e4, st4, t4) ->
  exists t,
    ask q h st0 = (PyTuple [PyStr (failure_message e4); PyNone], st4, t)
    /\ executed t = []
    /\ response_sends t = []
    /\ con st4 = con st0.
Proof.
  intros H1 H2 H3 H4.
  rewrite (ask_all_attempts_fail q h _ _ _ _ _ _ _ _ _ _ _ _ _
             (attempt_body_sql_fails _ _ _ _ _ H1)
             (attempt_body_sql_fails _ _ _ _ _ H2)
             (attempt_body_sql_fails _ _ _ _ _ H3)
             (attempt_body_sql_fails _ _ _ _ _ H4)).
  destruct (generate_sql_frame _ _ _ _ _ H1) as (-> & C1 & _).
  destruct (generate_sql_frame _ _ _ _ _ H2) as (-> & C2 & _).
  destruct (generate_sql_frame _ _ _ _ _ H3) as (-> & C3 & _).
  destruct (generate_sql_frame _ _ _ _ _ H4) as (-> & C4 & _).
  eexists. split; [reflexivity|]. repeat split. congruence.
Qed.

(** C1: when the SQL step fails in the first three attempts (with any
    exception, a parse or validation error in particular) and the fourth
    attempt succeeds, [ask] sleeps 2, 4 and 6 seconds in that order, sends
    the question to the SQL session exactly four times, and returns the
    message of the fourth attempt. *)
Theorem ask_succeeds_on_fourth_attempt (q : str) (h : pyval)
    (st0 st1 st2 st3 st4 : state) e1 e2 e3 v t1 t2 t3 t4 :
  generate_sql q st0 = (Err e1, st1, t1) ->
  generate_sql q st1 = (Err e2, st2, t2) ->
  generate_sql q st2 = (Err e3, st3, t3) ->
  attempt_body q st3 = (Ok v, st4, t4) ->
  exists t m,
    ask q h st0 = (PyStr m, st4, t)
    /\ v = PyStr m
    /\ sleeps t = [2; 4; 6]
    /\ sql_sends t = replicate 4 (sql_prompt q)
    /\ t = [EvSqlSend (sql_prompt q); EvSleep 2;
            EvSqlSend (sql_prompt q); EvSleep 4;
            EvSqlSend (sql_prompt q); EvSleep 6] ++ t4.
Proof.
  intros H1 H2 H3 H4. unfold ask. rewrite range_tries.
  rewrite (ask_loop_retry _ _ _ _ _ _ _ (attempt_body_sql_fails _ _ _ _ _ H1))
    by (unfold tries; lia).
  rewrite (ask_loop_retry _ _ _ _ _ _ _ (attempt_body_sql_fails _ _ _ _ _ H2))
    by (unfold tries; lia).
  rewrite (ask_loop_retry _ _ _ _ _ _ _ (attempt_body_sql_fails _ _ _ _ _ H3))
    by (unfold tries; lia).
  rewrite (ask_loop_ok _ _ _ _ _ _ _ H4).
  destruct (generate_sql_frame _ _ _ _ _ H1) as (-> & _).
  destruct (generate_sql_frame _ _ _ _ _ H2) as (-> & _).
  destruct (generate_sql_frame _ _ _ _ _ H3) as (-> & _).
  apply attempt_body_Ok in H4
    as (? & ? & ? & query & ? & ? & dataText & ? & ? & ? & m & Hrest).
  destruct Hrest as (_ & _ & _ & _ & _ & _ & _ & _ & _ & _ & -> & _ & ->).
  eexists _, m. repeat split.
Qed.

(** C5: the SQL schema accepts exactly the objects with a string
    [sqlQuery] (and a [description] that is a string when present), the
    answer schema exactly the objects with a string [message]; otherwise
    [validate] raises a [ValidationError]; and an attempt whose SQL object
    or answer object fails validation, with attempts left, is followed by
    the sleep and the remaining attempts, not by the failure return. *)
Theorem validation_contract :
  (forall v,
     validate v sql_schema = Ok tt <->
     exists d : gmap str pyval,
       v = PyDict d
       /\ (exists s, d !! lit "sqlQuery" = Some (PyStr s))
       /\ (forall x, d !! lit "description" = Some x -> exists s, x = PyStr s))
  /\ (forall v,
       validate v response_schema = Ok tt <->
       exists (d : gmap str pyval) s,
         v = PyDict d /\ d !! lit "message" = Some (PyStr s))
  /\ (forall v sch,
       validate v sch = Ok tt
       \/ exists errs, errs <> [] /\ validate v sch = Err (ValidationError v errs))
  /\ (forall a rest q (st : state) text s' v e,
       sql_send_message (sql_chat st) (sql_prompt q) = (Ok text, s') ->
       extract_json_from_response text = Ok v ->
       validate v sql_schema = Err e ->
       a < tries - 1 ->
       ask_loop (a :: rest) q st =
         (let '(r, st3, t3) :=
            ask_loop rest q (MkState s' (response_chat st) (con st)) in
          (r, st3, [EvSqlSend (sql_prompt q); EvSleep (2 * (a + 1))] ++ t3)))
  /\ (forall a rest q (st st1 st2 : state) query dataText t1 t2 text s' v e,
       generate_sql q st = (Ok query, st1, t1) ->
       execute query st1 = (Ok dataText, st2, t2) ->
       response_send_message (response_chat st2) (response_prompt q dataText)
         = (Ok text, s') ->
       extract_json_from_response text = Ok v ->
       validate v response_schema = Err e ->
       a < tries - 1 ->
       ask_loop (a :: rest) q st =
         (let '(r, st3, t3) :=
            ask_loop rest q (MkState (sql_chat st2) s' (con st2)) in
          (r, st3,
           (t1 ++ t2 ++ [EvRespSend (response_prompt q dataText)])
           ++ [EvSleep (2 * (a + 1))] ++ t3))).
Proof.
  split; [exact validate_sql_schema|].
  split; [exact validate_response_schema|].
  split; [exact validate_raises|].
  split.
  - intros a rest q st text s' v e Hs Hx Hv Ha.
    assert (attempt_body q st =
              (Err e, MkState s' (response_chat st) (con st),
               [EvSqlSend (sql_prompt q)])) as Hb.
    { apply attempt_body_sql_fails. rewrite generate_sql_run, Hs.
      cbn [fst snd]. unfold sql_query_of. cbn [mbind result_bind].
      rewrite Hx. cbn [mbind result_bind]. by rewrite Hv. }
    by rewrite (ask_loop_retry _ _ _ _ _ _ _ Hb Ha).
  - intros a rest q st st1 st2 query dataText t1 t2 text s' v e
      Hg He Hs Hx Hv Ha.
    assert (attempt_body q st =
              (Err e, MkState (sql_chat st2) s' (con st2),
               t1 ++ t2 ++ [EvRespSend (response_prompt q dataText)])) as Hb.
    { rewrite attempt_body_unfold, Hg, He, generate_answer_run, Hs.
      cbn [fst snd]. unfold message_of. cbn [mbind result_bind].
      rewrite Hx. cbn [mbind result_bind]. by rewrite Hv. }
    by rewrite (ask_loop_retry _ _ _ _ _ _ _ Hb Ha).
Qed.

(** C6: when an attempt fails after its SQL step succeeded (in the
    execution or the answer step) and attempts remain, the loop sleeps and
    runs the next attempt from the state the failed one left; that attempt
    starts by sending the same question to the SQL session, and a query it
    executes is the one this new SQL step produced. *)
Theorem retry_restarts_from_sql (a a' : Z) (rest : list Z) (q : str)
    (st st1 st' : state) query e t1 t :
  generate_sql q st = (Ok query, st1, t1) ->
  attempt_body q st = (Err e, st', t) ->
  a < tries - 1 ->
  exists r st'' t'' v st3 t3,
    attempt_body q st' = (r, st'', t'')
    /\ ask_loop (a :: a' :: rest) q st
       = (v, st3, t ++ [EvSleep (2 * (a + 1))] ++ t'' ++ t3)
    /\ (exists tail, t'' = EvSqlSend (sql_prompt q) :: tail)
    /\ (forall query',
          In (EvExecute query') t'' ->
          exists st1',
            generate_sql q st'
            = (Ok (PyStr query'), st1', [EvSqlSend (sql_prompt q)])).
Proof.
  intros _ Hb Ha.
  destruct (attempt_body q st') as [[r st''] t''] eqn:Hb'.
  destruct (attempt_body_trace _ _ _ _ _ Hb') as [Hhead Hexec].
  rewrite (ask_loop_retry _ _ _ _ _ _ _ Hb Ha).
  cbn [ask_loop]. rewrite Hb'.
  destruct r as [v|e'].
  - exists (Ok v), st'', t'', v, st'', []. rewrite app_nil_r. auto.
  - destruct (a' <? tries - 1).
    + unfold time_sleep.
      destruct (ask_loop rest q st'') as [[v st3] t3].
      exists (Err e'), st'', t'', v, st3, ([EvSleep (2 * (a' + 1))] ++ t3). auto.
    + exists (Err e'), st'', t'', (PyTuple [PyStr (failure_message e'); PyNone]), st'', [].
      rewrite app_nil_r. auto.
Qed.

(** The attempt behind a returned message. *)
Lemma ask_loop_message (l : list Z) (q : str) (st st' : state) m t :
  ask_loop l q st = (PyStr m, st', t) ->
  exists st0 t0 t1,
    attempt_body q st0 = (Ok (PyStr m), st', t1) /\ t = t0 ++ t1.
Proof.
  revert st t; induction l as [|a rest IH]; intros st t; cbn [ask_loop].
  - discriminate.
  - destruct (attempt_body q st) as [[[v|e] st1] t1] eqn:Hb.
    + intros [= -> <- <-]. exists st, [], t1. auto.
    + destruct (a <? tries - 1); [|discriminate].
      unfold time_sleep.
      destruct (ask_loop rest q st1) as [[v st3] t3] eqn:Hl.
      intros [= -> <- <-].
      destruct (IH _ _ Hl) as (st0 & t0 & t1' & Hb0 & ->).
      exists st0, (t1 ++ [EvSleep (2 * (a + 1))] ++ t0), t1'.
      split; [assumption|]. by rewrite <- !app_assoc.
Qed.

(** C7: a message returned by [ask] is the [message] of one attempt: from
    some state [st0], that attempt got a reply of the SQL session, extracted
    and validated it, executed its [sqlQuery], serialised the rows, sent
    them to the answer session, extracted and validated the reply; these
    are the last three actions of the call. *)
Theorem ask_message_from_one_attempt (q : str) (h : pyval) (st st' : state) m t :
  ask q h st = (PyStr m, st', t) ->
  exists (st0 : state) t0 sql_text s1 (d : gmap str pyval) query data c1 dataText
         response_text s2 (d' : gmap str pyval),
    t = t0 ++ [EvSqlSend (sql_prompt q); EvExecute query;
               EvRespSend (response_prompt q dataText)]
    /\ sql_send_message (sql_chat st0) (sql_prompt q) = (Ok sql_text, s1)
    /\ extract_json_from_response sql_text = Ok (PyDict d)
    /\ validate (PyDict d) sql_schema = Ok tt
    /\ d !! lit "sqlQuery" = Some (PyStr query)
    /\ cur_execute (con st0) query = (Ok data, c1)
    /\ json_dumps data = Ok dataText
    /\ response_send_message (response_chat st0) (response_prompt q dataText)
       = (Ok response_text, s2)
    /\ extract_json_from_response response_text = Ok (PyDict d')
    /\ validate (PyDict d') response_schema = Ok tt
    /\ d' !! lit "message" = Some (PyStr m)
    /\ st' = MkState s1 s2 c1.
Proof.
  unfold ask. intros H.
  apply ask_loop_message in H as (st0 & t0 & t1 & Hb & ->).
  apply attempt_body_Ok in Hb
    as (sql_text & s1 & d & query & data & c1 & dataText & response_text
        & s2 & d' & m' & H1 & H2 & H3 & H4 & H5 & H6 & H7 & H8 & H9 & H10
        & [= ->] & -> & ->).
  exists st0, t0, sql_text, s1, d, query, data, c1, dataText, response_text, s2, d'.
  repeat split; assumption.
Qed.

(** *** The description of a SQL Directive *)

Lemma sql_query_of_sim (r1 r2 : result str) :
  reply_sim r1 r2 -> sql_query_of r1 = sql_query_of r2.
Proof.
  intros [-> | (text1 & text2 & -> & -> & d1 & d2 & X1 & X2 & V1 & V2 & Hd)];
    [reflexivity|].
  unfold sql_query_of. cbn [mbind result_bind]. rewrite X1, X2.
  cbn [mbind result_bind]. rewrite V1, V2. cbn [mbind result_bind].
  unfold getitem.
  assert (d1 !! lit "sqlQuery" = d2 !! lit "sqlQuery") as ->; [|reflexivity].
  rewrite <- (lookup_delete_ne d1 (lit "description") (lit "sqlQuery")) by discriminate.
  rewrite Hd. by apply lookup_delete_ne.
Qed.

Lemma attempt_body_sim (R : SqlSession -> SqlSession -> Prop) (q : str)
    (st1 st2 : state) :
  description_simulation R -> state_sim R st1 st2 ->
  exists r t st1' st2',
    attempt_body q st1 = (r, st1', t)
    /\ attempt_body q st2 = (r, st2', t)
    /\ state_sim R st1' st2'.
Proof.
  intros HR (Hsql & Hresp & Hcon).
  destruct (HR _ _ (sql_prompt q) Hsql) as [Hrep Hnext].
  rewrite !attempt_body_unfold, !generate_sql_run.
  rewrite (sql_query_of_sim _ _ Hrep).
  destruct (sql_query_of (sql_send_message (sql_chat st2) (sql_prompt q)).1)
    as [query|e].
  - rewrite !execute_run. cbn [con sql_chat response_chat].
    destruct query;
      try (eexists _, _, _, _; split; [reflexivity|]; split; [reflexivity|];
           repeat split; cbn [con sql_chat response_chat]; assumption).
    rewrite Hcon.
    destruct (data ← (cur_execute (con st2) s).1; json_dumps data) as [dataText|e].
    + rewrite !generate_answer_run. cbn [con sql_chat response_chat].
      rewrite Hresp.
      eexists _, _, _, _; split; [reflexivity|]; split; [reflexivity|].
      repeat split; cbn [con sql_chat response_chat]; assumption.
    + eexists _, _, _, _; split; [reflexivity|]; split; [reflexivity|].
      repeat split; cbn [con sql_chat response_chat]; assumption.
  - eexists _, _, _, _; split; [reflexivity|]; split; [reflexivity|].
    repeat split; cbn [con sql_chat response_chat]; assumption.
Qed.

Lemma ask_loop_sim (R : SqlSession -> SqlSession -> Prop) (l : list Z) (q : str)
    (st1 st2 : state) :
  description_simulation R -> state_sim R st1 st2 ->
  exists v t st1' st2',
    ask_loop l q st1 = (v, st1', t)
    /\ ask_loop l q st2 = (v, st2', t)
    /\ state_sim R st1' st2'.
Proof.
  intros HR. revert st1 st2; induction l as [|a rest IH]; intros st1 st2 Hst.
  - exists PyNone, [], st1, st2. auto.
  - cbn [ask_loop].
    destruct (attempt_body_sim R q _ _ HR Hst) as (r & t & st1' & st2' & -> & -> & Hst').
    destruct r as [v|e].
    + exists v, t, st1', st2'. auto.
    + destruct (a <? tries - 1).
      * unfold time_sleep.
        destruct (IH _ _ Hst') as (v & t' & st1'' & st2'' & -> & -> & Hst'').
        eexists _, _, _, _. eauto.
      * eexists _, _, _, _. eauto.
Qed.

(** C9: take two runs of [ask] on the same question, from states with the
    same database and the same answer session, whose SQL sessions give, at
    every turn, replies that differ at most in the [description] of a
    validated SQL Directive.  The two runs return the same value and
    perform the same actions: the same queries are executed, the same
    messages (carrying the same serialised rows) go to the answer session;
    and they leave the database and the answer session in the same state. *)
Theorem description_not_consumed (R : SqlSession -> SqlSession -> Prop)
    (q : str) (h : pyval) (st1 st2 : state) :
  description_simulation R ->
  state_sim R st1 st2 ->
  exists v t st1' st2',
    ask q h st1 = (v, st1', t)
    /\ ask q h st2 = (v, st2', t)
    /\ con st1' = con st2'
    /\ response_chat st1' = response_chat st2'.
Proof.
  intros HR Hst. unfold ask.
  destruct (ask_loop_sim R (range tries) q _ _ HR Hst)
    as (v & t & st1' & st2' & H1 & H2 & _ & Hresp & Hcon).
  exists v, t, st1', st2'. auto.
Qed.

End OrchestratorFacts.

(** ** The program on concrete inputs *)

Section Scenarios.
Import PyStr Schema Extractor Orchestrator Demo.
Existing Instance demo.

Local Open Scope Z_scope.

(** C8, on a reply that is a JSON object as a whole. *)
Lemma extract_direct_witness :
  extract_json_from_response sql_reply_plain
  = Ok (PyDict {[ lit "sqlQuery" := PyStr count_query ]}).
Proof. apply extract_direct. vm_compute. reflexivity. Defined.

(** C3 (as amended), on a reply with two JSON-tagged fences: the first
    fence marker after the opening one ends the candidate. *)
Lemma extract_fallback_order_witness :
  extract_json_from_response two_json_fences
  = loads (strip (before fence (after fence_json two_json_fences)))
  /\ extract_json_from_response two_json_fences
     = Ok (PyDict {[ lit "message" := PyStr (lit "hi") ]}).
Proof.
  destruct (extract_fallback_order two_json_fences) as [_ H].
  destruct (H (lit "Expecting value")) as [Hj _]; [vm_compute; reflexivity|].
  destruct Hj as [_ Hnext]; [vm_compute; reflexivity|].
  split.
  - apply Hnext. intros j k Hj Hk. vm_compute in Hj. vm_compute in Hk.
    injection Hj as <-. injection Hk as <-. right. vm_compute. lia.
  - vm_compute. reflexivity.
Defined.

(** C3, as stated, fails on a reply in which backticks precede a second
    JSON-tagged marker: the text between the first JSON-tagged marker and
    the next fence marker is a SQL Directive, but the extractor parses that
    text followed by two backticks, and raises. *)
Lemma extract_json_fence_counterexample :
  json_loads backticks_before_json_fence = inr (lit "Expecting value")
  /\ contains fence_json backticks_before_json_fence = true
  /\ before fence (after fence_json backticks_before_json_fence)
     = qlit "{'sqlQuery': 'SELECT 1'}"
  /\ loads (strip (before fence (after fence_json backticks_before_json_fence)))
     = Ok (PyDict {[ lit "sqlQuery" := PyStr (lit "SELECT 1") ]})
  /\ extract_json_from_response backticks_before_json_fence
     = Err (JSONDecodeError (lit "Extra data"))
  /\ extract_json_from_response backticks_before_json_fence
     <> loads (strip (before fence (after fence_json backticks_before_json_fence))).
Proof.
  repeat split; try (vm_compute; reflexivity).
  vm_compute. discriminate.
Qed.

(** C10, on a reply whose JSON-tagged fence is never closed. *)
Lemma extract_unclosed_json_fence_witness :
  extract_json_from_response unclosed_json_fence
  = loads (strip (after fence_json unclosed_json_fence))
  /\ extract_json_from_response unclosed_json_fence
     = Ok (PyDict {[ lit "sqlQuery" := PyStr (lit "SELECT 1") ]}).
Proof.
  destruct (extract_unclosed_json_fence unclosed_json_fence (lit "Expecting value"))
    as [H1 H2]; [vm_compute; reflexivity ..|].
  split; [exact H1|]. apply H2. vm_compute. reflexivity.
Defined.

(** C1, on a run whose SQL replies fail validation twice and parsing once
    before a good attempt. *)
Lemma ask_succeeds_on_fourth_attempt_witness :
  exists t m,
    ask question history retry_state = (PyStr m, start [] [] 5, t)
    /\ PyStr (lit "There are 5 employees.") = PyStr m
    /\ sleeps t = [2; 4; 6]
    /\ sql_sends t = replicate 4 (sql_prompt question)
    /\ t = [EvSqlSend (sql_prompt question); EvSleep 2;
            EvSqlSend (sql_prompt question); EvSleep 4;
            EvSqlSend (sql_prompt question); EvSleep 6]
           ++ [EvSqlSend (sql_prompt question); EvExecute count_query;
               EvRespSend (response_prompt question (lit "[[5]]"))].
Proof.
  eapply (ask_succeeds_on_fourth_attempt question history retry_state);
    vm_compute; reflexivity.
Defined.

(** C2: every attempt fails in the execution step; the value returned is
    a pair of the failure message and [None], not a string. *)
Theorem ask_failure_returns_pair :
  (ask question history no_table_state).1.1
  = PyTuple [PyStr (lit "Sorry, I encountered an error: no such table: staff");
             PyNone]
  /\ forall s, (ask question history no_table_state).1.1 <> PyStr s.
Proof.
  split; [vm_compute; reflexivity|]. intros s. vm_compute. discriminate.
Qed.

(** C4: every attempt fails in the SQL step; nothing is executed and the
    database is untouched, and the value returned is a pair of the failure
    message and [None], not a string. *)
Theorem ask_without_sql_returns_pair :
  (ask question history no_sql_state).1.1
  = PyTuple [PyStr (lit "Sorry, I encountered an error: 'sqlQuery' is a required property");
             PyNone]
  /\ executed (ask question history no_sql_state).2 = []
  /\ con (ask question history no_sql_state).1.2 = con no_sql_state.
Proof. repeat split; vm_compute; reflexivity. Qed.

(** C5, on an object that the SQL schema accepts, and on a run whose first
    SQL reply fails validation. *)
Lemma validation_contract_witness :
  validate (PyDict {[ lit "sqlQuery" := PyStr count_query ]}) sql_schema = Ok tt
  /\ ask_loop [0; 1; 2; 3] question retry_state
     = (let '(r, st3, t3) :=
          ask_loop [1; 2; 3] question
            (MkState [Ok sql_reply_invalid; Ok sql_reply_garbage; Ok sql_reply]
                     (response_chat retry_state) (con retry_state)) in
        (r, st3, [EvSqlSend (sql_prompt question); EvSleep (2 * (0 + 1))] ++ t3))
  /\ ask_loop [0; 1; 2; 3] question bad_answer_then_good_state
     = (let '(r, st3, t3) :=
          ask_loop [1; 2; 3] question (start [Ok sql_reply] [Ok answer_reply] 5) in
        (r, st3,
         ([EvSqlSend (sql_prompt question)] ++ [EvExecute count_query]
          ++ [EvRespSend (response_prompt question (lit "[[5]]"))])
         ++ [EvSleep (2 * (0 + 1))] ++ t3)).
Proof.
  destruct validation_contract as (Hsql & _ & _ & Hretry & Hretry').
  split; [|split].
  - apply Hsql. eexists. split; [reflexivity|]. split.
    + exists count_query. vm_compute. reflexivity.
    + intros x Hx. vm_compute in Hx. discriminate.
  - eapply Hretry; vm_compute; reflexivity.
  - eapply (Hretry' 0 [1; 2; 3] question bad_answer_then_good_state
              (start [Ok sql_reply] [Ok answer_reply_invalid; Ok answer_reply] 5)
              (start [Ok sql_reply] [Ok answer_reply_invalid; Ok answer_reply] 5)
              (PyStr count_query) (lit "[[5]]"));
      vm_compute; reflexivity.
Defined.

(** C6, on a run whose first attempt fails in the execution step. *)
Lemma retry_restarts_from_sql_witness :
  exists r st'' t'' v st3 t3,
    attempt_body question (attempt_body question bad_table_then_good_state).1.2
    = (r, st'', t'')
    /\ ask_loop (0 :: 1 :: [2; 3]) question bad_table_then_good_state
       = (v, st3,
          (attempt_body question bad_table_then_good_state).2
          ++ [EvSleep (2 * (0 + 1))] ++ t'' ++ t3)
    /\ (exists tail, t'' = EvSqlSend (sql_prompt question) :: tail)
    /\ (forall query',
          In (EvExecute query') t'' ->
          exists st1',
            generate_sql question (attempt_body question bad_table_then_good_state).1.2
            = (Ok (PyStr query'), st1', [EvSqlSend (sql_prompt question)])).
Proof.
  eapply (retry_restarts_from_sql 0 1 [2; 3] question bad_table_then_good_state);
    vm_compute; reflexivity.
Defined.

(** C7, on the run of C1. *)
Lemma ask_message_from_one_attempt_witness :
  exists (st0 : state) t0 sql_text s1 (d : gmap str pyval) query data c1 dataText
         response_text s2 (d' : gmap str pyval),
    (ask question history retry_state).2
    = t0 ++ [EvSqlSend (sql_prompt question); EvExecute query;
             EvRespSend (response_prompt question dataText)]
    /\ sql_send_message (sql_chat st0) (sql_prompt question) = (Ok sql_text, s1)
    /\ extract_json_from_response sql_text = Ok (PyDict d)
    /\ validate (PyDict d) sql_schema = Ok tt
    /\ d !! lit "sqlQuery" = Some (PyStr query)
    /\ cur_execute (con st0) query = (Ok data, c1)
    /\ json_dumps data = Ok dataText
    /\ response_send_message (response_chat st0) (response_prompt question dataText)
       = (Ok response_text, s2)
    /\ extract_json_from_response response_text = Ok (PyDict d')
    /\ validate (PyDict d') response_schema = Ok tt
    /\ d' !! lit "message" = Some (PyStr (lit "There are 5 employees."))
    /\ (ask question history retry_state).1.2 = MkState s1 s2 c1.
Proof.
  apply (ask_message_from_one_attempt question history retry_state).
  vm_compute. reflexivity.
Defined.

(** Scripted sessions whose scripts differ at most in descriptions are in
    simulation. *)
Lemma script_sim_simulation : @description_simulation demo script_sim.
Proof.
  intros s1 s2 msg H. destruct H; cbn.
  - split; [by left | constructor].
  - split; assumption.
Qed.

(** C9, on two runs whose SQL replies differ in the presence of the
    description. *)
Lemma description_not_consumed_witness :
  exists v t st1' st2',
    ask question history described_state = (v, st1', t)
    /\ ask question history undescribed_state = (v, st2', t)
    /\ con st1' = con st2'
    /\ response_chat st1' = response_chat st2'.
Proof.
  apply (description_not_consumed script_sim); [exact script_sim_simulation|].
  split; [|split; reflexivity].
  constructor; [|constructor].
  right. exists sql_reply, sql_reply_plain.
  split; [reflexivity|]. split; [reflexivity|].
  eexists _, _.
  split; [vm_compute; reflexivity|].
  split; [vm_compute; reflexivity|].
  repeat split; vm_compute; reflexivity.
Defined.

End Scenarios.

(** * Further properties *)

(** ** Fenced blocks *)

Section FenceFacts.
Import PyStr Extractor.
Context {ext : External}.
Local Open Scope nat_scope.
Implicit Types (pre body post rest text : str).

(** A marker that starts with a backtick is first found right after a text
    without backticks. *)
Lemma find_after_plain marker pre rest :
  startswith [backtick] marker = true -> backtick ∉ pre ->
  find marker (pre ++ marker ++ rest) = Some (length pre).
Proof.
  intros Hm Hpre. induction pre as [|c pre IH]; cbn [app length].
  - assert (startswith marker (marker ++ rest) = true) as E
      by (apply startswith_app; eauto).
    destruct (marker ++ rest); cbn [find]; by rewrite E.
  - assert (startswith marker (c :: pre ++ marker ++ rest) = false) as E.
    { destruct (startswith marker (c :: pre ++ marker ++ rest)) eqn:E; [|reflexivity].
      pose proof (startswith_trans _ _ _ Hm E) as F. cbn [startswith] in F.
      rewrite andb_true_r in F. apply N.eqb_eq in F. subst c.
      exfalso. apply Hpre. left. }
    cbn [find]. rewrite E, IH; [reflexivity|]. intros ?. apply Hpre. by right.
Qed.

Lemma after_plain marker pre rest :
  startswith [backtick] marker = true -> backtick ∉ pre ->
  after marker (pre ++ marker ++ rest) = rest.
Proof.
  intros Hm Hpre. unfold after. rewrite find_after_plain by assumption.
  rewrite drop_app_ge by lia. rewrite drop_app_ge by lia.
  replace (length pre + length marker - length pre - length marker) with 0 by lia.
  reflexivity.
Qed.

Lemma before_plain marker pre rest :
  startswith [backtick] marker = true -> backtick ∉ pre ->
  before marker (pre ++ marker ++ rest) = pre.
Proof.
  intros Hm Hpre. unfold before. rewrite find_after_plain by assumption.
  apply take_app_length.
Qed.

Lemma startswith_cons a p c s :
  startswith (a :: p) (c :: s) = true -> a = c /\ startswith p s = true.
Proof.
  cbn [startswith]. intros [Hc Hp]%andb_true_iff.
  apply N.eqb_eq in Hc. auto.
Qed.

Lemma fence_is_backticks : fence = [backtick; backtick; backtick].
Proof. reflexivity. Qed.

(** After a body without backticks and its closing fence, a JSON-tagged
    marker starts with that fence or later, unless a backtick follows the
    fence. *)
Lemma json_fence_after_body body post k :
  backtick ∉ body -> head post <> Some backtick ->
  find fence_json (body ++ fence ++ post) = Some k ->
  length body = k \/ length body + length fence <= k.
Proof.
  intros Hbody Hpost [Hk _]%find_Some.
  apply (startswith_trans _ _ _ fence_json_starts_with_fence) in Hk.
  rewrite fence_is_backticks in Hk.
  destruct (decide (k < length body)) as [Hlt|Hge].
  - exfalso. rewrite drop_app_le in Hk by lia.
    destruct (drop k body) as [|c d] eqn:Ed.
    { apply (f_equal length) in Ed. rewrite length_drop in Ed. simpl in Ed. lia. }
    apply startswith_cons in Hk as [Hc _].
    apply Hbody. rewrite <- (take_drop k body), Ed, Hc.
    apply elem_of_app. right. left.
  - rewrite drop_app_ge in Hk by lia.
    destruct (k - length body) as [|[|[|n]]] eqn:En.
    + left. lia.
    + exfalso. cbn [drop app] in Hk.
      apply startswith_cons in Hk as [_ Hk]. apply startswith_cons in Hk as [_ Hk].
      destruct post as [|c post]; [discriminate|].
      apply startswith_cons in Hk as [Hc _]. apply Hpost. cbn. by rewrite Hc.
    + exfalso. cbn [drop app] in Hk.
      apply startswith_cons in Hk as [_ Hk].
      destruct post as [|c post]; [discriminate|].
      apply startswith_cons in Hk as [Hc _]. apply Hpost. cbn. by rewrite Hc.
    + right. cbn. lia.
Qed.


(** X2: a block opened by a JSON-tagged fence and closed by a fence is
    what gets parsed, whatever surrounds it, when the text before it and
    the block hold no backtick and no backtick follows the closing fence. *)
Theorem extract_json_block (pre body post msg : str) :
  backtick ∉ pre -> backtick ∉ body -> head post <> Some backtick ->
  json_loads (pre ++ fence_json ++ body ++ fence ++ post) = inr msg ->
  extract_json_from_response (pre ++ fence_json ++ body ++ fence ++ post)
  = loads (strip body).
Proof.
  intros Hpre Hbody Hpost Hl.
  assert (contains fence_json (pre ++ fence_json ++ body ++ fence ++ post) = true) as Hc.
  { apply contains_true. eexists. by apply find_after_plain. }
  rewrite (extract_fallback _ _ _ Hl (json_text_of_json_fence _ Hc)).
  rewrite (after_plain fence_json) by done.
  rewrite (before_before fence fence_json)
    by (first [ exact fence_nonempty | exact fence_json_starts_with_fence | idtac ];
        intros j k Hj Hk; rewrite (find_after_plain fence) in Hj by done;
        injection Hj as <-; by apply (json_fence_after_body body post)).
  by rewrite (before_plain fence).
Qed.

(** X3: without any JSON-tagged fence, the block between the first two
    fences is what gets parsed, when the text before it and the block hold
    no backtick. *)
Theorem extract_generic_block (pre body post msg : str) :
  backtick ∉ pre -> backtick ∉ body ->
  contains fence_json (pre ++ fence ++ body ++ fence ++ post) = false ->
  json_loads (pre ++ fence ++ body ++ fence ++ post) = inr msg ->
  extract_json_from_response (pre ++ fence ++ body ++ fence ++ post)
  = loads (strip body).
Proof.
  intros Hpre Hbody Hn Hl.
  assert (contains fence (pre ++ fence ++ body ++ fence ++ post) = true) as Hc.
  { apply contains_true. eexists. by apply find_after_plain. }
  rewrite (extract_fallback _ _ _ Hl (json_text_of_fence _ Hn Hc)).
  rewrite (after_plain fence) by done.
  by rewrite (before_plain fence).
Qed.

(** X4: without any JSON-tagged fence and with a single fence marker,
    everything after that marker is stripped and parsed. *)
Theorem extract_unclosed_fence (text msg : str) :
  json_loads text = inr msg ->
  contains fence_json text = false ->
  contains fence text = true ->
  contains fence (after fence text) = false ->
  extract_json_from_response text = loads (strip (after fence text)).
Proof.
  intros Hl Hn Hc Hrest. apply contains_false in Hrest.
  rewrite (extract_fallback _ _ _ Hl (json_text_of_fence _ Hn Hc)).
  unfold before. by rewrite Hrest.
Qed.

(** X5: a part that [split] returns holds no separator, so the second
    [split] of line 167 returns the part it is given. *)
Theorem second_split_is_identity (text part : str) :
  index (split fence text) 1 = Ok part ->
  index (split fence part) 0 = Ok part.
Proof.
  rewrite (split_unfold _ _ fence_nonempty).
  destruct (find fence text) as [i|] eqn:F; [|discriminate].
  change (index (?x :: ?l) 1) with (index l 0).
  rewrite (split_head _ _ fence_nonempty). intros [= <-].
  rewrite (split_head _ _ fence_nonempty).
  by rewrite (before_idemp _ _ fence_nonempty).
Qed.

(** X16: when a JSON-tagged fence is present, the text before its first
    marker plays no role, generic fenced blocks included: two replies that
    are not JSON as a whole and agree after their first JSON-tagged marker
    are extracted alike. *)
Theorem extract_ignores_text_before_json_fence (text1 text2 msg1 msg2 : str) :
  json_loads text1 = inr msg1 ->
  json_loads text2 = inr msg2 ->
  contains fence_json text1 = true ->
  contains fence_json text2 = true ->
  after fence_json text1 = after fence_json text2 ->
  extract_json_from_response text1 = extract_json_from_response text2.
Proof.
  intros Hl1 Hl2 Hc1 Hc2 Hafter.
  rewrite (extract_fallback _ _ _ Hl1 (json_text_of_json_fence _ Hc1)).
  rewrite (extract_fallback _ _ _ Hl2 (json_text_of_json_fence _ Hc2)).
  by rewrite Hafter.
Qed.

End FenceFacts.

(** ** What the schemas accept and report *)

Section SchemaFacts.
Import PyStr Schema.

(** X6: the schemas do not restrict other fields: an accepted object stays
    accepted when a field other than [sqlQuery] and [description] (for the
    answer schema: other than [message]) is added or overwritten. *)
Theorem validate_ignores_other_fields (d : gmap str pyval) (k : str) (x : pyval) :
  (k <> lit "sqlQuery" -> k <> lit "description" ->
   validate (PyDict d) sql_schema = Ok tt ->
   validate (PyDict (<[k:=x]> d)) sql_schema = Ok tt)
  /\ (k <> lit "message" ->
      validate (PyDict d) response_schema = Ok tt ->
      validate (PyDict (<[k:=x]> d)) response_schema = Ok tt).
Proof.
  split.
  - intros Hq Hd (d' & [= <-] & (s & Hs) & Hx)%validate_sql_schema.
    apply validate_sql_schema. exists (<[k:=x]> d). split; [reflexivity|].
    split.
    + exists s. by rewrite lookup_insert_ne.
    + intros y. rewrite lookup_insert_ne by done. apply Hx.
  - intros Hm (d' & s & [= <-] & Hs)%validate_response_schema.
    apply validate_response_schema. exists (<[k:=x]> d), s.
    split; [reflexivity|]. by rewrite lookup_insert_ne.
Qed.

(** X7: after a successful validation the subscript of line 201 (of line
    229) does not raise, and its value is a string. *)
Theorem getitem_after_validate (v : pyval) :
  (validate v sql_schema = Ok tt ->
   exists s, getitem v (lit "sqlQuery") = Ok (PyStr s))
  /\ (validate v response_schema = Ok tt ->
      exists s, getitem v (lit "message") = Ok (PyStr s)).
Proof.
  split.
  - intros (d & -> & (s & Hs) & _)%validate_sql_schema.
    exists s. unfold getitem. by rewrite Hs.
  - intros (d & s & -> & Hs)%validate_response_schema.
    exists s. unfold getitem. by rewrite Hs.
Qed.

Lemma iter_errors_object_two (k1 k2 r : str) (s1 s2 : schema)
    (d : gmap str pyval) :
  iter_errors (Mk (Some TObject) [(k1, s1); (k2, s2)] [r]) (PyDict d)
  = (match d !! k1 with Some x => iter_errors s1 x | None => [] end
     ++ match d !! k2 with Some x => iter_errors s2 x | None => [] end)
    ++ match d !! r with
       | Some _ => []
       | None => [RequiredMissing (PyDict d) r]
       end.
Proof.
  cbn [iter_errors is_type flat_map fst snd app]. by rewrite !app_nil_r.
Qed.

Lemma iter_errors_string (x : pyval) (e : violation) :
  e ∈ iter_errors string_schema x
  <-> is_type x TString = false /\ e = NotOfType x TString.
Proof.
  unfold string_schema. cbn [iter_errors].
  destruct (is_type x TString) eqn:Ex.
  - destruct x; cbn; split;
      first [ by intros ?%elem_of_nil | intros [? _]; discriminate ].
  - destruct x; try discriminate; cbn; rewrite list_elem_of_singleton;
      split; first [ by intros -> | by intros [_ ->] ].
Qed.

(** X8: what the validator reports for the SQL schema.  An instance that
    is not an object gives the type violation alone.  An object gives a
    violation for a missing [sqlQuery], and one for each of [sqlQuery] and
    [description] that is present and not a string, about that value;
    nothing else. *)
Theorem sql_schema_violations (v : pyval) (e : violation) :
  (is_type v TObject = false ->
   iter_errors sql_schema v = [NotOfType v TObject])
  /\ (forall d : gmap str pyval,
        v = PyDict d ->
        (e ∈ iter_errors sql_schema v <->
         (d !! lit "sqlQuery" = None /\ e = RequiredMissing v (lit "sqlQuery"))
         \/ (exists x, d !! lit "sqlQuery" = Some x
                       /\ is_type x TString = false /\ e = NotOfType x TString)
         \/ (exists x, d !! lit "description" = Some x
                       /\ is_type x TString = false /\ e = NotOfType x TString))).
Proof.
  split.
  - intros Hv. unfold sql_schema. cbn [iter_errors]. rewrite Hv.
    destruct v; try reflexivity. discriminate.
  - intros d ->. unfold sql_schema. rewrite iter_errors_object_two.
    rewrite !elem_of_app.
    destruct (d !! lit "sqlQuery") as [x|] eqn:Eq;
      destruct (d !! lit "description") as [y|] eqn:Ed;
      rewrite ?iter_errors_string, ?elem_of_nil, ?list_elem_of_singleton.
    + split.
      * intros [[[? ?]|[? ?]]|[]]; [right; left | right; right]; eauto.
      * intros [[? _]|[(x' & [= <-] & ? & ?)|(y' & [= <-] & ? & ?)]];
          [discriminate | left; left | left; right]; auto.
    + split.
      * intros [[[? ?]|[]]|[]]. right; left; eauto.
      * intros [[? _]|[(x' & [= <-] & ? & ?)|(y' & ? & _)]];
          [discriminate | left; left; auto | discriminate].
    + split.
      * intros [[[]|[? ?]]| ->]; [right; right; eauto | left; auto].
      * intros [[_ ->]|[(x' & ? & _)|(y' & [= <-] & ? & ?)]];
          [right | discriminate | left; right]; auto.
    + split.
      * intros [[[]|[]]| ->]. left; auto.
      * intros [[_ ->]|[(x' & ? & _)|(y' & ? & _)]];
          [by right | discriminate | discriminate].
Qed.

End SchemaFacts.

(** ** Invariants of a run of [ask] *)

Section RunFacts.
Import PyStr Schema Extractor Orchestrator.
Context {ext : External}.

Lemma sleeps_app (t1 t2 : list event) : sleeps (t1 ++ t2) = sleeps t1 ++ sleeps t2.
Proof. apply omap_app. Qed.

Lemma sql_sends_app (t1 t2 : list event) :
  sql_sends (t1 ++ t2) = sql_sends t1 ++ sql_sends t2.
Proof. apply omap_app. Qed.

Lemma executed_app (t1 t2 : list event) :
  executed (t1 ++ t2) = executed t1 ++ executed t2.
Proof. apply omap_app. Qed.

Lemma response_sends_app (t1 t2 : list event) :
  response_sends (t1 ++ t2) = response_sends t1 ++ response_sends t2.
Proof. apply omap_app. Qed.

(** The actions of an attempt, whatever its outcome. *)
Lemma attempt_body_shape (q : str) (st : state) :
  attempt_trace (sql_prompt q) (attempt_body q st).2.
Proof.
  rewrite attempt_body_unfold, generate_sql_run.
  destruct (sql_query_of _) as [query|e]; [|constructor].
  rewrite execute_run.
  destruct query; try (cbn [snd app]; constructor).
  destruct (data ← _; json_dumps data) as [dataText|e].
  - rewrite generate_answer_run. cbn [snd app]. constructor.
  - cbn [snd app]. constructor.
Qed.

Lemma attempt_trace_counts (p : str) (seg : list event) :
  attempt_trace p seg ->
  sleeps seg = [] /\ sql_sends seg = [p]
  /\ (length (executed seg) <= 1)%nat
  /\ (length (response_sends seg) <= length (executed seg))%nat.
Proof. intros []; cbn; repeat split; lia. Qed.

(** An attempt leaves each collaborator in the state its traced calls lead
    to. *)
Lemma attempt_body_replay (q : str) (st st' : state) r t :
  attempt_body q st = (r, st', t) ->
  sql_chat st' = replay_sql (sql_chat st) (sql_sends t)
  /\ response_chat st' = replay_response (response_chat st) (response_sends t)
  /\ con st' = replay_queries (con st) (executed t).
Proof.
  rewrite attempt_body_unfold, generate_sql_run.
  destruct (sql_query_of _) as [query|e]; [|by intros [= <- <- <-]].
  rewrite execute_run.
  destruct query; try by intros [= <- <- <-].
  destruct (data ← _; json_dumps data) as [dataText|e].
  - rewrite generate_answer_run. by intros [= <- <- <-].
  - by intros [= <- <- <-].
Qed.

Lemma ask_loop_replay (l : list Z) (q : str) (st st' : state) v t :
  ask_loop l q st = (v, st', t) ->
  sql_chat st' = replay_sql (sql_chat st) (sql_sends t)
  /\ response_chat st' = replay_response (response_chat st) (response_sends t)
  /\ con st' = replay_queries (con st) (executed t).
Proof.
  revert st st' v t; induction l as [|a rest IH]; intros st st' v t; cbn [ask_loop].
  - by intros [= <- <- <-].
  - destruct (attempt_body q st) as [[[v1|e] st1] t1] eqn:Hb;
      destruct (attempt_body_replay _ _ _ _ _ Hb) as (S1 & R1 & C1).
    + by intros [= <- <- <-].
    + destruct (a <? tries - 1); [|by intros [= <- <- <-]].
      unfold time_sleep.
      destruct (ask_loop rest q st1) as [[v3 st3] t3] eqn:Hl.
      destruct (IH _ _ _ _ Hl) as (S3 & R3 & C3). intros [= <- <- <-].
      rewrite !sql_sends_app, !response_sends_app, !executed_app.
      unfold replay_sql, replay_response, replay_queries in *.
      rewrite !foldl_app. cbn [sql_sends response_sends executed omap foldl].
      by rewrite <- S1, <- R1, <- C1.
Qed.

(** The invariants of the loop over the attempts [i], ..., [3]. *)
Lemma ask_loop_invariants (n i : nat) (q : str) (st st' : state) v t :
  (i + S n = 4)%nat ->
  ask_loop (map Z.of_nat (seq i (S n))) q st = (v, st', t) ->
  run_trace (sql_prompt q) (2 * (Z.of_nat i + 1)) t
  /\ ((exists m, v = PyStr m)
      \/ (exists e, v = PyTuple [PyStr (failure_message e); PyNone]))
  /\ exists k,
       (k <= n)%nat
       /\ sleeps t = (fun j => 2 * (Z.of_nat j + 1)) <$> seq i k
       /\ sql_sends t = replicate (S k) (sql_prompt q)
       /\ (length (executed t) <= S k)%nat
       /\ (length (response_sends t) <= length (executed t))%nat
       /\ ((exists l, v = PyTuple l) -> k = n).
Proof.
  revert i st st' v t; induction n as [|n IH]; intros i st st' v t Hi;
    [change (seq i 1) with [i]
    |change (seq i (S (S n))) with (i :: seq (S i) (S n))];
    cbn [map ask_loop];
    pose proof (attempt_body_shape q st) as Hshape;
    destruct (attempt_body q st) as [[[v1|e] st1] t1] eqn:Hb; cbn [snd] in Hshape;
    destruct (attempt_trace_counts _ _ Hshape) as (Hs & Hq & He & Hr).
  - intros [= <- <- <-].
    apply attempt_body_Ok in Hb as (? & ? & ? & ? & ? & ? & ? & ? & ? & ? & m & Hb).
    destruct Hb as (_ & _ & _ & _ & _ & _ & _ & _ & _ & _ & -> & _).
    split; [by constructor|]. split; [eauto|].
    exists 0%nat. repeat split; first [done | lia | by intros [? ?]].
  - assert ((Z.of_nat i <? tries - 1) = false) as ->
      by (apply Z.ltb_ge; unfold tries; lia).
    intros [= <- <- <-].
    split; [by constructor|]. split; [eauto|].
    exists 0%nat. repeat split; first [done | lia].
  - intros [= <- <- <-].
    apply attempt_body_Ok in Hb as (? & ? & ? & ? & ? & ? & ? & ? & ? & ? & m & Hb).
    destruct Hb as (_ & _ & _ & _ & _ & _ & _ & _ & _ & _ & -> & _).
    split; [by constructor|]. split; [eauto|].
    exists 0%nat. repeat split; first [done | lia | by intros [? ?]].
  - assert ((Z.of_nat i <? tries - 1) = true) as ->
      by (apply Z.ltb_lt; unfold tries; lia).
    unfold time_sleep.
    destruct (ask_loop (map Z.of_nat (seq (S i) (S n))) q st1) as [[v3 st3] t3] eqn:Hl.
    destruct (IH (S i) _ _ _ _ ltac:(lia) Hl)
      as (Hrun & Hv & k & Hk & Hs3 & Hq3 & He3 & Hr3 & Hf).
    intros [= <- <- Ht].
    assert (sleeps t = 2 * (Z.of_nat i + 1) :: sleeps t3) as ->
      by (rewrite <- Ht, sleeps_app, Hs; reflexivity).
    assert (sql_sends t = sql_prompt q :: sql_sends t3) as ->
      by (rewrite <- Ht, sql_sends_app, Hq; reflexivity).
    assert (executed t = executed t1 ++ executed t3) as ->
      by (rewrite <- Ht, executed_app; reflexivity).
    assert (response_sends t = response_sends t1 ++ response_sends t3) as ->
      by (rewrite <- Ht, response_sends_app; reflexivity).
    subst t.
    split.
    { apply run_retry; [assumption|].
      replace (2 * (Z.of_nat i + 1) + 2) with (2 * (Z.of_nat (S i) + 1)) by lia.
      assumption. }
    split; [assumption|].
    exists (S k).
    rewrite Hs3, Hq3, !length_app.
    repeat split; first [done | lia | idtac].
    intros Hfail. f_equal. by apply Hf.
Qed.

Lemma ask_invariants (q : str) (h : pyval) (st st' : state) v t :
  ask q h st = (v, st', t) ->
  run_trace (sql_prompt q) 2 t
  /\ ((exists m, v = PyStr m)
      \/ (exists e, v = PyTuple [PyStr (failure_message e); PyNone]))
  /\ exists k,
       (k <= 3)%nat
       /\ sleeps t = (fun j => 2 * (Z.of_nat j + 1)) <$> seq 0 k
       /\ sql_sends t = replicate (S k) (sql_prompt q)
       /\ (length (executed t) <= S k)%nat
       /\ (length (response_sends t) <= length (executed t))%nat
       /\ ((exists l, v = PyTuple l) -> k = 3%nat).
Proof.
  unfold ask, range. change (Z.to_nat tries) with 4%nat.
  intros E. by apply (ask_loop_invariants 3 0) in E.
Qed.

(** What an attempt contributes to the projections of a trace, and the
    value of a successful one. *)
Lemma attempt_body_counts (q : str) (st st' : state) r t :
  attempt_body q st = (r, st', t) ->
  sleeps t = [] /\ sql_sends t = [sql_prompt q].
Proof.
  intros E. pose proof (attempt_body_shape q st) as H. rewrite E in H.
  by destruct (attempt_trace_counts _ _ H) as (? & ? & _).
Qed.

Lemma attempt_body_Ok_str (q : str) (st st' : state) v t :
  attempt_body q st = (Ok v, st', t) -> exists m, v = PyStr m.
Proof.
  intros (? & ? & ? & ? & ? & ? & ? & ? & ? & ? & m & H)%attempt_body_Ok.
  destruct H as (_ & _ & _ & _ & _ & _ & _ & _ & _ & _ & -> & _). eauto.
Qed.

(** X9: [ask] returns a message, or the pair of the failure message of
    some exception and [None]; the [None] of a loop that runs out is never
    returned. *)
Theorem ask_returns_message_or_pair (q : str) (h : pyval) (st : state) :
  (exists m, (ask q h st).1.1 = PyStr m)
  \/ (exists e, (ask q h st).1.1 = PyTuple [PyStr (failure_message e); PyNone]).
Proof.
  destruct (ask q h st) as [[v st'] t] eqn:E.
  by destruct (ask_invariants _ _ _ _ _ _ E) as (_ & Hv & _).
Qed.

(** X10: in every run, [ask] sleeps 2, 4, 6 seconds in that order, as far
    as it gets: after [k] sleeps ([k] at most 3) it has sent the same
    prompt to the SQL session [k + 1] times; it executes at most one query
    per attempt and sends at most one message to the answer session per
    executed query; and a run that returns the failure pair has slept
    three times. *)
Theorem ask_backoff_schedule (q : str) (h : pyval) (st : state) :
  exists k,
    (k <= 3)%nat
    /\ sleeps (ask q h st).2 = take k [2; 4; 6]
    /\ sql_sends (ask q h st).2 = replicate (S k) (sql_prompt q)
    /\ (length (executed (ask q h st).2) <= S k)%nat
    /\ (length (response_sends (ask q h st).2)
        <= length (executed (ask q h st).2))%nat
    /\ ((exists l, (ask q h st).1.1 = PyTuple l) -> k = 3%nat).
Proof.
  destruct (ask q h st) as [[v st'] t] eqn:E.
  destruct (ask_invariants _ _ _ _ _ _ E)
    as (_ & _ & k & Hk & Hs & Hq & He & Hr & Hf).
  exists k. cbn [fst snd]. rewrite Hs.
  repeat split; try assumption.
  destruct k as [|[|[|[|k]]]]; first [reflexivity | lia].
Qed.

(** X11: the actions of every run are attempts separated by sleeps of 2,
    4, 6 seconds; every attempt starts with the send of the same prompt to
    the SQL session; a query is executed only right after that send, and a
    message goes to the answer session only right after an execution; the
    run does not end with a sleep. *)
Theorem ask_trace_shape (q : str) (h : pyval) (st : state) :
  run_trace (sql_prompt q) 2 (ask q h st).2.
Proof.
  destruct (ask q h st) as [[v st'] t] eqn:E.
  by destruct (ask_invariants _ _ _ _ _ _ E) as (Hrun & _).
Qed.

(** X12: the trace accounts for every change of state: after a run,
    successful or not, each collaborator is in the state that the traced
    calls lead to, in order.  In particular the queries of failed attempts
    stay applied to the database. *)
Theorem ask_replays_trace (q : str) (h : pyval) (st : state) :
  sql_chat (ask q h st).1.2
  = replay_sql (sql_chat st) (sql_sends (ask q h st).2)
  /\ response_chat (ask q h st).1.2
     = replay_response (response_chat st) (response_sends (ask q h st).2)
  /\ con (ask q h st).1.2
     = replay_queries (con st) (executed (ask q h st).2).
Proof.
  destruct (ask q h st) as [[v st'] t] eqn:E. unfold ask in E.
  exact (ask_loop_replay _ _ _ _ _ _ E).
Qed.

(** X13: when the SQL step fails in each of the four attempts, no query is
    executed, nothing is sent to the answer session, and the database and
    the answer session are in the state they were in. *)
Theorem no_sql_no_execution (q : str) (h : pyval)
    (st0 st1 st2 st3 st4 : state) e1 e2 e3 e4 t1 t2 t3 t4 :
  generate_sql q st0 = (Err e1, st1, t1) ->
  generate_sql q st1 = (Err e2, st2, t2) ->
  generate_sql q st2 = (Err e3, st3, t3) ->
  generate_sql q st3 = (Err e4, st4, t4) ->
  executed (ask q h st0).2 = []
  /\ response_sends (ask q h st0).2 = []
  /\ con (ask q h st0).1.2 = con st0
  /\ response_chat (ask q h st0).1.2 = response_chat st0.
Proof.
  intros H1 H2 H3 H4.
  destruct (ask_sql_never_succeeds q h _ _ _ _ _ _ _ _ _ _ _ _ _ H1 H2 H3 H4)
    as (t & E & He & Hr & Hc).
  pose proof E as E'. unfold ask in E'.
  apply ask_loop_replay in E' as (_ & Hresp & _).
  rewrite E. cbn [fst snd]. rewrite Hresp, Hr. auto.
Qed.

(** X14: [ask] returns a pair exactly when each of the four attempts
    raises; the pair then holds the failure message of the fourth
    exception, the earlier ones are dropped, and there is no sleep after
    the fourth attempt. *)
Theorem ask_failure_iff (q : str) (h : pyval) (st0 : state) :
  (exists l, (ask q h st0).1.1 = PyTuple l) <->
  exists st1 st2 st3 st4 e1 e2 e3 e4 t1 t2 t3 t4,
    attempt_body q st0 = (Err e1, st1, t1)
    /\ attempt_body q st1 = (Err e2, st2, t2)
    /\ attempt_body q st2 = (Err e3, st3, t3)
    /\ attempt_body q st3 = (Err e4, st4, t4)
    /\ ask q h st0 =
         (PyTuple [PyStr (failure_message e4); PyNone], st4,
          t1 ++ [EvSleep 2] ++ t2 ++ [EvSleep 4] ++ t3 ++ [EvSleep 6] ++ t4).
Proof.
  split.
  - intros [l Hl]. unfold ask in Hl. rewrite range_tries in Hl.
    destruct (attempt_body q st0) as [[[v|e1] st1] t1] eqn:H1.
    { exfalso. destruct (attempt_body_Ok_str _ _ _ _ _ H1) as [m ->].
      rewrite (ask_loop_ok _ _ _ _ _ _ _ H1) in Hl. discriminate. }
    rewrite (ask_loop_retry _ _ _ _ _ _ _ H1) in Hl by (unfold tries; lia).
    destruct (attempt_body q st1) as [[[v|e2] st2] t2] eqn:H2.
    { exfalso. destruct (attempt_body_Ok_str _ _ _ _ _ H2) as [m ->].
      rewrite (ask_loop_ok _ _ _ _ _ _ _ H2) in Hl. discriminate. }
    rewrite (ask_loop_retry _ _ _ _ _ _ _ H2) in Hl by (unfold tries; lia).
    destruct (attempt_body q st2) as [[[v|e3] st3] t3] eqn:H3.
    { exfalso. destruct (attempt_body_Ok_str _ _ _ _ _ H3) as [m ->].
      rewrite (ask_loop_ok _ _ _ _ _ _ _ H3) in Hl. discriminate. }
    rewrite (ask_loop_retry _ _ _ _ _ _ _ H3) in Hl by (unfold tries; lia).
    destruct (attempt_body q st3) as [[[v|e4] st4] t4] eqn:H4.
    { exfalso. destruct (attempt_body_Ok_str _ _ _ _ _ H4) as [m ->].
      rewrite (ask_loop_ok _ _ _ _ _ _ _ H4) in Hl. discriminate. }
    exists st1, st2, st3, st4, e1, e2, e3, e4, t1, t2, t3, t4.
    repeat split; first [assumption | eapply ask_all_attempts_fail; eassumption].
  - intros (st1 & st2 & st3 & st4 & e1 & e2 & e3 & e4 & t1 & t2 & t3 & t4
            & _ & _ & _ & _ & E).
    rewrite E. eauto.
Qed.

(** X15: [ask] returns the message of the first attempt that succeeds:
    when [k] attempts fail in a row, at any step and with any exception,
    and the next one succeeds ([k] at most 3), the value of that attempt is
    returned after sleeps of 2, ..., 2k seconds and [k + 1] sends to the SQL
    session. *)
Theorem ask_returns_first_success (k : nat) (q : str) (h : pyval)
    (sts : nat -> state) (es : nat -> exn) (ts : nat -> list event)
    (v : pyval) (st' : state) (t' : list event) :
  (k <= 3)%nat ->
  (forall i, (i < k)%nat ->
             attempt_body q (sts i) = (Err (es i), sts (S i), ts i)) ->
  attempt_body q (sts k) = (Ok v, st', t') ->
  exists t,
    ask q h (sts 0%nat) = (v, st', t)
    /\ sleeps t = take k [2; 4; 6]
    /\ sql_sends t = replicate (S k) (sql_prompt q)
    /\ exists m, v = PyStr m.
Proof.
  intros Hk Hfail Hok.
  destruct (attempt_body_counts _ _ _ _ _ Hok) as [Hs Hq].
  pose proof (attempt_body_Ok_str _ _ _ _ _ Hok) as Hm.
  unfold ask. rewrite range_tries.
  destruct k as [|[|[|[|k]]]]; [| | | |lia].
  - rewrite (ask_loop_ok _ _ _ _ _ _ _ Hok).
    eexists. split; [reflexivity|]. by rewrite Hs, Hq.
  - pose proof (Hfail 0%nat ltac:(lia)) as F0.
    destruct (attempt_body_counts _ _ _ _ _ F0) as [Hs0 Hq0].
    rewrite (ask_loop_retry _ _ _ _ _ _ _ F0) by (unfold tries; lia).
    rewrite (ask_loop_ok _ _ _ _ _ _ _ Hok).
    eexists. split; [reflexivity|].
    rewrite !sleeps_app, !sql_sends_app, Hs, Hq, Hs0, Hq0. by repeat split.
  - pose proof (Hfail 0%nat ltac:(lia)) as F0.
    pose proof (Hfail 1%nat ltac:(lia)) as F1.
    destruct (attempt_body_counts _ _ _ _ _ F0) as [Hs0 Hq0].
    destruct (attempt_body_counts _ _ _ _ _ F1) as [Hs1 Hq1].
    rewrite (ask_loop_retry _ _ _ _ _ _ _ F0) by (unfold tries; lia).
    rewrite (ask_loop_retry _ _ _ _ _ _ _ F1) by (unfold tries; lia).
    rewrite (ask_loop_ok _ _ _ _ _ _ _ Hok).
    eexists. split; [reflexivity|].
    rewrite !sleeps_app, !sql_sends_app, Hs, Hq, Hs0, Hq0, Hs1, Hq1.
    by repeat split.
  - pose proof (Hfail 0%nat ltac:(lia)) as F0.
    pose proof (Hfail 1%nat ltac:(lia)) as F1.
    pose proof (Hfail 2%nat ltac:(lia)) as F2.
    destruct (attempt_body_counts _ _ _ _ _ F0) as [Hs0 Hq0].
    destruct (attempt_body_counts _ _ _ _ _ F1) as [Hs1 Hq1].
    destruct (attempt_body_counts _ _ _ _ _ F2) as [Hs2 Hq2].
    rewrite (ask_loop_retry _ _ _ _ _ _ _ F0) by (unfold tries; lia).
    rewrite (ask_loop_retry _ _ _ _ _ _ _ F1) by (unfold tries; lia).
    rewrite (ask_loop_retry _ _ _ _ _ _ _ F2) by (unfold tries; lia).
    rewrite (ask_loop_ok _ _ _ _ _ _ _ Hok).
    eexists. split; [reflexivity|].
    rewrite !sleeps_app, !sql_sends_app, Hs, Hq, Hs0, Hq0, Hs1, Hq1, Hs2, Hq2.
    by repeat split.
Qed.

End RunFacts.

(** ** The further properties on concrete inputs *)

Section FurtherScenarios.
Import PyStr Schema Extractor Orchestrator Demo.
Existing Instance demo.

Local Open Scope Z_scope.


(** X2, on a JSON-tagged block inside prose. *)
Lemma extract_json_block_witness :
  extract_json_from_response
    (block_pre ++ fence_json ++ block_body ++ fence ++ block_post)
  = loads (strip block_body)
  /\ loads (strip block_body)
     = Ok (PyDict {[ lit "sqlQuery" := PyStr (lit "SELECT 1") ]}).
Proof.
  split; [|vm_compute; reflexivity].
  apply (extract_json_block block_pre block_body block_post (lit "Expecting value")).
  - apply (bool_decide_eq_false_1 _). vm_compute. reflexivity.
  - apply (bool_decide_eq_false_1 _). vm_compute. reflexivity.
  - intros H. vm_compute in H. discriminate H.
  - vm_compute. reflexivity.
Defined.

(** X3, on a block between generic fences inside prose. *)
Lemma extract_generic_block_witness :
  extract_json_from_response
    (block_pre ++ fence ++ block_body ++ fence ++ block_post)
  = loads (strip block_body).
Proof.
  apply (extract_generic_block block_pre block_body block_post (lit "Expecting value")).
  - apply (bool_decide_eq_false_1 _). vm_compute. reflexivity.
  - apply (bool_decide_eq_false_1 _). vm_compute. reflexivity.
  - vm_compute. reflexivity.
  - vm_compute. reflexivity.
Defined.

(** X4, on a reply whose only fence is never closed. *)
Lemma extract_unclosed_fence_witness :
  extract_json_from_response unclosed_fence
  = loads (strip (after fence unclosed_fence))
  /\ loads (strip (after fence unclosed_fence))
     = Ok (PyDict {[ lit "message" := PyStr (lit "hi") ]}).
Proof.
  split; [|vm_compute; reflexivity].
  apply (extract_unclosed_fence unclosed_fence (lit "Expecting value"));
    vm_compute; reflexivity.
Defined.

(** X5, on the block between generic fences. *)
Lemma second_split_is_identity_witness :
  index (split fence block_body) 0 = Ok block_body.
Proof.
  apply (second_split_is_identity
           (block_pre ++ fence ++ block_body ++ fence ++ block_post)).
  vm_compute. reflexivity.
Defined.

(** X16, on a reply with a generic block before the JSON-tagged one. *)
Lemma extract_ignores_text_before_json_fence_witness :
  extract_json_from_response generic_then_json_block
  = extract_json_from_response json_block
  /\ extract_json_from_response generic_then_json_block
     = Ok (PyDict {[ lit "sqlQuery" := PyStr (lit "SELECT 1") ]}).
Proof.
  split; [|vm_compute; reflexivity].
  apply (extract_ignores_text_before_json_fence
           generic_then_json_block json_block
           (lit "Expecting value") (lit "Expecting value"));
    vm_compute; reflexivity.
Defined.

(** X6, on a SQL Directive that gains a field. *)
Lemma validate_ignores_other_fields_witness :
  validate (PyDict (<[ lit "rationale" := PyInt 1 ]> directive)) sql_schema = Ok tt.
Proof.
  apply (proj1 (validate_ignores_other_fields directive (lit "rationale") (PyInt 1))).
  - intros H. vm_compute in H. discriminate H.
  - intros H. vm_compute in H. discriminate H.
  - vm_compute. reflexivity.
Defined.

(** X7, on a validated SQL Directive. *)
Lemma getitem_after_validate_witness :
  exists s, getitem (PyDict directive) (lit "sqlQuery") = Ok (PyStr s).
Proof.
  apply (proj1 (getitem_after_validate (PyDict directive))).
  vm_compute. reflexivity.
Defined.

(** X8, on an object without [sqlQuery]. *)
Lemma sql_schema_violations_witness :
  RequiredMissing (PyDict description_only) (lit "sqlQuery")
  ∈ iter_errors sql_schema (PyDict description_only).
Proof.
  apply (proj2 (sql_schema_violations (PyDict description_only) _)
           description_only eq_refl).
  left. split; [vm_compute; reflexivity | reflexivity].
Defined.

(** X13, on the run whose SQL step always fails. *)
Lemma no_sql_no_execution_witness :
  executed (ask question history no_sql_state).2 = []
  /\ response_sends (ask question history no_sql_state).2 = []
  /\ con (ask question history no_sql_state).1.2 = con no_sql_state
  /\ response_chat (ask question history no_sql_state).1.2
     = response_chat no_sql_state.
Proof.
  eapply (no_sql_no_execution question history no_sql_state);
    vm_compute; reflexivity.
Defined.

(** X14, on the run whose execution step always fails. *)
Lemma ask_failure_iff_witness :
  exists st1 st2 st3 st4 e1 e2 e3 e4 t1 t2 t3 t4,
    attempt_body question no_table_state = (Err e1, st1, t1)
    /\ attempt_body question st1 = (Err e2, st2, t2)
    /\ attempt_body question st2 = (Err e3, st3, t3)
    /\ attempt_body question st3 = (Err e4, st4, t4)
    /\ ask question history no_table_state =
         (PyTuple [PyStr (failure_message e4); PyNone], st4,
          t1 ++ [EvSleep 2] ++ t2 ++ [EvSleep 4] ++ t3 ++ [EvSleep 6] ++ t4).
Proof.
  apply (proj1 (ask_failure_iff question history no_table_state)).
  eexists. vm_compute. reflexivity.
Defined.

(** X15, on the run whose first attempt fails in the execution step. *)
Lemma ask_returns_first_success_witness :
  exists t,
    ask question history bad_table_then_good_state
    = (PyStr (lit "There are 5 employees."), start [] [] 5, t)
    /\ sleeps t = take 1 [2; 4; 6]
    /\ sql_sends t = replicate 2 (sql_prompt question)
    /\ exists m, PyStr (lit "There are 5 employees.") = PyStr m.
Proof.
  eapply (ask_returns_first_success 1 question history
           (state_before bad_table_then_good_state)
           (error_of bad_table_then_good_state)
           (trace_of bad_table_then_good_state)).
  - lia.
  - intros [|i] Hi; [vm_compute; reflexivity | lia].
  - vm_compute. reflexivity.
Defined.

End FurtherScenarios.
